(** * NumpyVectorStore: a shallow embedding of [langchain/vectorstores/numpy.py]

    The store keeps an array of embedding vectors ([self.index]), a
    dictionary from row index to document id ([self.index_to_docstore_id])
    and a document store collaborator ([self.docstore]).

    Modelling choices.
    - Numbers are IEEE 754 values ([spec_float] of the Standard Library):
      an embedding function returns Python floats (binary64, an integer
      [z] counting as [float(z)]), [np.array(..., dtype=np.float32)] rounds
      each of them to binary32, and line 92 subtracts, squares and sums in
      binary32, every operation rounded to nearest even, with overflow to
      infinity and NaN; a row is summed in the order of numpy's pairwise
      summation.
    - Python exceptions are values of [exn], one constructor per raise site
      or per exception class of a library, and a method returns the state
      it leaves behind together with a [Return] or a [Raise].
    - [numpy] is modelled for the shapes this file meets (one and two
      dimensions) with its shape rules: [np.array] on nested lists,
      [np.vstack], broadcasting subtraction, [np.sum(axis=1)], [np.pad].
    - [np.argsort] is called with its default [kind], for which numpy
      promises a sorting permutation (NaN last) and no order among equal
      keys: it is a type class [np.ArgSort] whose contract is
      [np.ArgSortContract].
    - [uuid.uuid4] is the stream [uuid4 : nat -> string] of the values the
      process draws, with the number of draws kept in the state.
    - An [Iterable[str]] is a list, which can be gone through again, or a
      one-pass iterator, which a [for] loop leaves exhausted. *)

From Stdlib Require Import ZArith Lia SpecFloat.
From stdpp Require Import base gmap strings list sorting pretty.

Local Open Scope Z_scope.

(** * The model *)

(** ** Exceptions and outcomes *)

Inductive exn :=
  | ValueError_docstore_not_addable                   (* numpy.py:56 *)
  | ValueError_could_not_find (_id : string) (got : string)  (* numpy.py:104, 135 *)
  | IndexError (i : Z)                                (* list or array subscript *)
  | KeyError (i : Z)                                  (* index_to_docstore_id[i] *)
  | AttributeError (type_name attr : string)          (* attribute lookup *)
  | Numpy_ValueError                                  (* shape errors inside numpy *)
  | Numpy_AxisError                                   (* axis out of bounds *)
  | DocstoreError (msg : string).                     (* raised by the docstore *)

Inductive outcome (A : Type) :=
  | Return (a : A)
  | Raise (e : exn).
Arguments Return {A} a.
Arguments Raise {A} e.

#[global] Instance outcome_ret : MRet outcome := @Return.
#[global] Instance outcome_bind : MBind outcome := λ A B f m,
  match m with
  | Return a => f a
  | Raise e => Raise e
  end.

Definition is_Return {A} (o : outcome A) : Prop :=
  match o with Return _ => True | Raise _ => False end.

(** ** Python values *)

Record Document := {
  page_content : string;
  metadata : gmap string string;
}.

(** [Iterable[str]]: a list can be iterated again and again, an iterator
    (a generator, [iter(...)], a file) yields its items once. *)
Inductive iterable :=
  | PyList (items : list string)
  | PyIterator (remaining : list string).

(** One full [for text in texts] pass: the items seen, and the iterable as
    the pass leaves it. *)
Definition iterate (texts : iterable) : list string * iterable :=
  match texts with
  | PyList items => (items, PyList items)
  | PyIterator remaining => (remaining, PyIterator [])
  end.

(** [l[i]] on a Python sequence, with negative indices counted from the end. *)
Definition py_getitem {A} (l : list A) (i : Z) : outcome A :=
  let n := Z.of_nat (length l) in
  let j := if bool_decide (i < 0) then i + n else i in
  if bool_decide (0 ≤ j < n) then
    match l !! Z.to_nat j with
    | Some x => Return x
    | None => Raise (IndexError i)
    end
  else Raise (IndexError i).

(** [l[:k]] on a Python sequence. *)
Definition py_slice_to {A} (l : list A) (k : Z) : list A :=
  if bool_decide (0 ≤ k) then take (Z.to_nat k) l
  else take (Z.to_nat (Z.of_nat (length l) + k)) l.

(** A Python dictionary built entry by entry: a later entry for a key
    replaces an earlier one. *)
Definition py_dict `{Countable K} {V} (entries : list (K * V)) : gmap K V :=
  foldl (λ m kv, <[kv.1 := kv.2]> m) ∅ entries.

(** [d[i]] on a dictionary with integer keys. *)
Definition dict_getitem (d : gmap Z string) (i : Z) : outcome string :=
  match d !! i with
  | Some v => Return v
  | None => Raise (KeyError i)
  end.

(** [[f(x) for x in l]] for an [f] that can raise. *)
Fixpoint for_each {A B} (f : A → outcome B) (l : list A) : outcome (list B) :=
  match l with
  | [] => Return []
  | x :: rest => y ← f x; ys ← for_each f rest; Return (y :: ys)
  end.

(** ** Floating-point numbers *)

(** A Python [float] is an IEEE 754 binary64 value, a [numpy.float32] a
    binary32 one; both are [spec_float]s, canonical for their format. *)
Definition float64 : Type := spec_float.
Definition float32 : Type := spec_float.

#[global] Instance spec_float_inhabited : Inhabited spec_float :=
  populate (S754_zero false).

Module f64.

(** [float(z)] for a Python integer [z]. *)
Definition of_Z (z : Z) : float64 := binary_normalize 53 1024 z 0 false.

End f64.

Module f32.

Definition prec : Z := 24.
Definition emax : Z := 128.

Definition zero : float32 := S754_zero false.

(** The cast of a Python float to [float32]: to the nearest value, ties
    to even, infinity beyond the range. *)
Definition of_float64 (x : float64) : float32 :=
  match x with
  | S754_finite s m e => binary_round prec emax s m e
  | _ => x
  end.

Definition of_Z (z : Z) : float32 := of_float64 (f64.of_Z z).

Definition add : float32 → float32 → float32 := SFadd prec emax.
Definition sub : float32 → float32 → float32 := SFsub prec emax.
Definition mul : float32 → float32 → float32 := SFmul prec emax.

Definition is_nan (x : float32) : bool :=
  match x with S754_nan => true | _ => false end.

(** The integer a value is, when it is one. *)
Definition to_Z (x : float32) : option Z :=
  match x with
  | S754_zero _ => Some 0
  | S754_finite s m e =>
      if 0 <=? e then Some (cond_Zopp s (Zpos m * 2 ^ e))
      else if Zpos m mod 2 ^ (- e) =? 0
           then Some (cond_Zopp s (Zpos m / 2 ^ (- e)))
           else None
  | _ => None
  end.

End f32.

(** ** numpy arrays of one and two dimensions, of dtype [float32] *)

Inductive ndarray :=
  | Arr1 (v : list float32)                          (* shape (len v,) *)
  | Arr2 (ncols : nat) (rows : list (list float32)). (* shape (len rows, ncols) *)

Module np.

(** [np.array(v, dtype=np.float32)] on a list of Python floats. *)
Definition as_float32 (v : list float64) : list float32 :=
  f32.of_float64 <$> v.

(** [len(a)], which is [a.shape[0]]: the row count of a matrix. *)
Definition len (a : ndarray) : nat :=
  match a with
  | Arr1 v => length v
  | Arr2 _ rows => length rows
  end.

(** [np.array(vs, dtype=np.float32)] on a list of lists of Python floats:
    the empty list gives shape (0,), lists of one width a matrix of their
    casts, ragged lists are refused. *)
Definition array (vs : list (list float64)) : outcome ndarray :=
  match vs with
  | [] => Return (Arr1 [])
  | v :: _ =>
      if forallb (λ r, Nat.eqb (length r) (length v)) vs
      then Return (Arr2 (length v) (as_float32 <$> vs))
      else Raise Numpy_ValueError
  end.

(** [np.atleast_2d], as [np.vstack] applies it to each operand. *)
Definition atleast_2d (a : ndarray) : nat * list (list float32) :=
  match a with
  | Arr1 v => (length v, [v])
  | Arr2 d rows => (d, rows)
  end.

(** [np.vstack((a, b))]: concatenation along the first axis; the widths
    must agree. *)
Definition vstack (a b : ndarray) : outcome ndarray :=
  let '(da, ra) := atleast_2d a in
  let '(db, rb) := atleast_2d b in
  if Nat.eqb da db then Return (Arr2 da (ra ++ rb)) else Raise Numpy_ValueError.

(** Broadcasting of a trailing axis of size [d] against one of size [e]. *)
Definition broadcast_dim (d e : nat) : option nat :=
  if Nat.eqb d e then Some d
  else if Nat.eqb e 1 then Some d
  else if Nat.eqb d 1 then Some e
  else None.

(** [u - q] on two one-dimensional arrays whose sizes broadcast. *)
Definition sub_broadcast (u q : list float32) : list float32 :=
  if Nat.eqb (length u) (length q) then zip_with f32.sub u q
  else if Nat.eqb (length q) 1 then (λ x, f32.sub x (hd f32.zero q)) <$> u
  else (λ y, f32.sub (hd f32.zero u) y) <$> q.

(** [a - q] for a one-dimensional [q]. *)
Definition subtract (a : ndarray) (q : list float32) : outcome ndarray :=
  match a with
  | Arr1 u =>
      match broadcast_dim (length u) (length q) with
      | Some _ => Return (Arr1 (sub_broadcast u q))
      | None => Raise Numpy_ValueError
      end
  | Arr2 d rows =>
      match broadcast_dim d (length q) with
      | Some d' => Return (Arr2 d' ((λ r, sub_broadcast r q) <$> rows))
      | None => Raise Numpy_ValueError
      end
  end.

(** [a ** 2], component by component: for the exponent 2 numpy
    multiplies each component by itself. *)
Definition square (a : ndarray) : ndarray :=
  match a with
  | Arr1 v => Arr1 ((λ x, f32.mul x x) <$> v)
  | Arr2 d rows =>
      Arr2 d ((λ r : list float32, (λ x, f32.mul x x) <$> r) <$> rows)
  end.

(** The sum of a row as numpy's add-reduction along the contiguous axis
    makes it (pairwise_sum of loops_utils.h): below 8 numbers one after
    the other; up to 128 numbers in 8 running sums, one per position
    modulo 8, added up as a tree, then the rest one after the other;
    beyond 128 the two halves, the first a multiple of 8 long. *)
Fixpoint running_sums (r a : list float32) : list float32 :=
  match a with
  | x0 :: x1 :: x2 :: x3 :: x4 :: x5 :: x6 :: x7 :: rest =>
      running_sums (zip_with f32.add r [x0; x1; x2; x3; x4; x5; x6; x7]) rest
  | _ => r
  end.

Definition sum_block (a : list float32) : float32 :=
  let n := length a in
  if (n <? 8)%nat then foldl f32.add f32.zero a
  else
    let whole := take (n - n mod 8) a in
    let r := running_sums (take 8 whole) (drop 8 whole) in
    foldl f32.add
      (f32.add (f32.add (f32.add (r !!! 0%nat) (r !!! 1%nat))
                        (f32.add (r !!! 2%nat) (r !!! 3%nat)))
               (f32.add (f32.add (r !!! 4%nat) (r !!! 5%nat))
                        (f32.add (r !!! 6%nat) (r !!! 7%nat))))
      (drop (n - n mod 8) a).

(** [fuel] bounds the depth of the halving; the length of the row is
    enough of it. *)
Fixpoint pairwise_sum_upto (fuel : nat) (a : list float32) : float32 :=
  match fuel with
  | S fuel' =>
      let n := length a in
      if (128 <? n)%nat then
        let n2 := (n / 2 - (n / 2) mod 8)%nat in
        f32.add (pairwise_sum_upto fuel' (take n2 a))
                (pairwise_sum_upto fuel' (drop n2 a))
      else sum_block a
  | O => sum_block a
  end.

Definition pairwise_sum (a : list float32) : float32 :=
  pairwise_sum_upto (length a) a.

(** One entry of [np.sum(a, axis=1)]: the reduction starts from 0. *)
Definition sum_row (r : list float32) : float32 :=
  f32.add f32.zero (pairwise_sum r).

(** [np.sum(a, axis=1)]: the sum of each row; a one-dimensional array has
    no axis 1. *)
Definition sum_axis1 (a : ndarray) : outcome (list float32) :=
  match a with
  | Arr1 _ => Raise Numpy_AxisError
  | Arr2 _ rows => Return (sum_row <$> rows)
  end.

(** [np.pad(I, (0, n), "constant", constant_values=c)]. *)
Definition pad_right (I : list Z) (n : Z) (c : Z) : list Z :=
  I ++ replicate (Z.to_nat n) c.

(** The order in which numpy sorts floats: [a < b], or [b] is NaN and [a]
    is not, so that NaN comes last. *)
Definition sort_lt (a b : float32) : bool :=
  SFltb a b || (f32.is_nan b && negb (f32.is_nan a)).

(** [a] may come before [b] in a sorted array. *)
Definition sort_le (a b : float32) : Prop := sort_lt b a = false.

(** [np.argsort(D)] with the default [kind]. *)
Class ArgSort := argsort : list float32 → list nat.

(** What numpy promises of it: the indices of [D], each once, in an order
    that sorts [D]. Nothing is promised about equal keys. *)
Class ArgSortContract `{ArgSort} : Prop := {
  argsort_perm D : argsort D ≡ₚ seq 0 (length D);
  argsort_sorted D :
    StronglySorted (λ i j, sort_le (D !!! i) (D !!! j)) (argsort D);
}.

End np.

(** [numpy.ndarray] has no attribute [search] and none called
    [reconstruct]: Python raises at the attribute lookup, before any
    argument of the call is evaluated. *)
Definition ndarray_search (a : ndarray) (xq : list (list float32)) (k : Z)
    : outcome (list (list float32) * list (list Z)) :=
  Raise (AttributeError "numpy.ndarray" "search").

Definition ndarray_reconstruct (a : ndarray) (i : Z)
    : outcome (list float32) :=
  Raise (AttributeError "numpy.ndarray" "reconstruct").

(** ** The docstore collaborator *)

(** [Docstore.search] returns a [Document] or, for an unknown id, some
    text saying so. *)
Inductive search_result :=
  | IsDocument (doc : Document)
  | NotDocument (text : string).

(** The interface [langchain.docstore.base.Docstore]; [add] is there when
    the docstore is also an [AddableMixin], which is what
    [isinstance(self.docstore, AddableMixin)] tests. A call of [add] gives
    the docstore it leaves and [None] when it returned, [Some msg] when it
    raised. *)
Class Docstore (D : Type) := {
  search : D → string → search_result;
  add : option (D → gmap string Document → D * option string);
}.

(** A docstore whose [add], when it returns, has stored what it was given. *)
Class DocstoreStores (D : Type) `{Docstore D} : Prop :=
  add_search f d texts d' _id doc :
    add = Some f → f d texts = (d', None) →
    texts !! _id = Some doc → search d' _id = IsDocument doc.

(** Modelled from the spec: [InMemoryDocstore] of
    langchain/docstore/in_memory.py, which is not among the sources; a
    dictionary from id to document whose [add] puts the given entries and
    whose [search] gives the document or a text that is not a document. *)
Record InMemoryDocstore := { _dict : gmap string Document }.

#[global] Instance InMemoryDocstore_docstore : Docstore InMemoryDocstore := {|
  search d _id :=
    match _dict d !! _id with
    | Some doc => IsDocument doc
    | None => NotDocument ("ID " +:+ _id +:+ " not found.")
    end;
  add := Some (λ d texts, ({| _dict := texts ∪ _dict d |}, None));
|}.

(** Modelled from the spec: a docstore of the read-only shape of section 9,
    a [Docstore] that is no [AddableMixin]. *)
Record ReadOnlyDocstore := { ro_dict : gmap string Document }.

#[global] Instance ReadOnlyDocstore_docstore : Docstore ReadOnlyDocstore := {|
  search d _id :=
    match ro_dict d !! _id with
    | Some doc => IsDocument doc
    | None => NotDocument ("ID " +:+ _id +:+ " not found.")
    end;
  add := None;
|}.

(** ** State and methods *)

(** numpy.py:30-41 *)
Record NumpyVectorStore (D : Type) := {
  embedding_function : string → list float64;
  index : ndarray;
  docstore : D;
  index_to_docstore_id : gmap Z string;
}.
Arguments embedding_function {D} _ _.
Arguments index {D} _.
Arguments docstore {D} _.
Arguments index_to_docstore_id {D} _.

(** What a method call can change: the store object and the number of
    values drawn from [uuid.uuid4] so far. *)
Record world (D : Type) := {
  self : NumpyVectorStore D;
  uuid_calls : nat;
}.
Arguments self {D} _.
Arguments uuid_calls {D} _.

Definition set_index {D} (a : ndarray) (w : world D) : world D :=
  {| self := {| embedding_function := embedding_function (self w);
                index := a;
                docstore := docstore (self w);
                index_to_docstore_id := index_to_docstore_id (self w) |};
     uuid_calls := uuid_calls w |}.

Definition set_docstore {D} (d : D) (w : world D) : world D :=
  {| self := {| embedding_function := embedding_function (self w);
                index := index (self w);
                docstore := d;
                index_to_docstore_id := index_to_docstore_id (self w) |};
     uuid_calls := uuid_calls w |}.

Definition set_index_to_docstore_id {D} (m : gmap Z string) (w : world D)
    : world D :=
  {| self := {| embedding_function := embedding_function (self w);
                index := index (self w);
                docstore := docstore (self w);
                index_to_docstore_id := m |};
     uuid_calls := uuid_calls w |}.

Definition set_uuid_calls {D} (n : nat) (w : world D) : world D :=
  {| self := self w; uuid_calls := n |}.

(** A method: from the state before to the state after and what the call
    returned or raised. A raise keeps the state reached so far. *)
Definition method (D A : Type) : Type := world D → world D * outcome A.

Definition ret {D A} (a : A) : method D A := λ w, (w, Return a).
Definition bind {D A B} (m : method D A) (f : A → method D B) : method D B :=
  λ w, match m w with
       | (w', Return a) => f a w'
       | (w', Raise e) => (w', Raise e)
       end.
Definition lift {D A} (o : outcome A) : method D A := λ w, (w, o).
Definition gets {D A} (f : world D → A) : method D A := λ w, (w, Return (f w)).
Definition modify {D} (f : world D → world D) : method D unit :=
  λ w, (f w, Return ()).

Declare Scope method_scope.
Delimit Scope method_scope with method.
Notation "x <- m ;; k" := (bind m (λ x, k))
  (at level 100, m at next level, right associativity) : method_scope.
Notation "m ;; k" := (bind m (λ _, k))
  (at level 100, right associativity) : method_scope.

(** [metadatas[i] if metadatas else {}]: [None] and the empty list are
    false. *)
Definition metadata_at (metadatas : option (list (gmap string string)))
    (i : nat) : outcome (gmap string string) :=
  match metadatas with
  | None | Some [] => Return ∅
  | Some l =>
      match l !! i with
      | Some m => Return m
      | None => Raise (IndexError (Z.of_nat i))
      end
  end.

(** The loop [for i, text in enumerate(texts)] that builds the documents
    (numpy.py:62-65 and 165-168), from position [i] on. *)
Fixpoint make_documents (metadatas : option (list (gmap string string)))
    (i : nat) (texts : list string) : outcome (list Document) :=
  match texts with
  | [] => Return []
  | text :: rest =>
      metadata ← metadata_at metadatas i;
      documents ← make_documents metadatas (S i) rest;
      Return ({| page_content := text; metadata := metadata |} :: documents)
  end.

Section NumpyVectorStore.
Context {DS : Type} {DS_docstore : Docstore DS} {np_argsort : np.ArgSort}.

(** [uuid4 n] is the text of the value the [n]-th call of [uuid.uuid4]
    returns. *)
Variable uuid4 : nat → string.

(** [langchain.vectorstores.utils.maximal_marginal_relevance], which is
    not among the sources: from the query embedding, the candidate
    embeddings and [k] to positions among the candidates. *)
Variable maximal_marginal_relevance :
  list float64 → list (list float32) → Z → outcome (list Z).

(** numpy.py:70-73: the list of index, id and document, the ids drawn one
    per document from [uuid4] after the [calls] draws made before. *)
Definition full_info (starting_len calls : nat) (documents : list Document)
    : list (Z * string * Document) :=
  imap (λ i doc, (Z.of_nat (starting_len + i), uuid4 (calls + i), doc))
       documents.

(** numpy.py:43-78 *)
Definition add_texts (texts : iterable)
    (metadatas : option (list (gmap string string)))
    : method DS (list string) :=
  match add with
  | None => lift (Raise ValueError_docstore_not_addable)
  | Some docstore_add =>
      (this <- gets self;;
       (* Embed and create the documents. *)
       let '(seen, texts) := iterate texts in
       let embeddings := embedding_function this <$> seen in
       let '(seen_again, _) := iterate texts in
       documents <- lift (make_documents metadatas 0 seen_again);;
       (* Add to the index, the index_to_id mapping, and the docstore. *)
       let starting_len := size (index_to_docstore_id this) in
       new_rows <- lift (np.array embeddings);;
       stacked <- lift (np.vstack (index this) new_rows);;
       modify (set_index stacked);;
       (* Get list of index, id, and docs. *)
       calls <- gets uuid_calls;;
       let full_info := full_info starting_len calls documents in
       modify (set_uuid_calls (calls + length documents));;
       (* Add information to docstore and index. *)
       (λ w, let '(d, r) := docstore_add (docstore (self w))
                              (py_dict ((λ e, (e.1.2, e.2)) <$> full_info)) in
             (set_docstore d w,
              match r with
              | None => Return ()
              | Some msg => Raise (DocstoreError msg)
              end));;
       let index_to_id := py_dict ((λ e, (e.1.1, e.1.2)) <$> full_info) in
       modify (λ w, set_index_to_docstore_id
                      (index_to_id ∪ index_to_docstore_id (self w)) w);;
       ret ((λ e, e.1.2) <$> full_info))%method
  end.

(** numpy.py:90-94: the row indices [indices] that the loop goes through. *)
Definition similarity_indices (this : NumpyVectorStore DS) (query : string)
    (k : Z) : outcome (list Z) :=
  let embedding := embedding_function this query in
  diff ← np.subtract (index this) (np.as_float32 embedding);
  D ← np.sum_axis1 (np.square diff);
  let I := Z.of_nat <$> np.argsort D in
  Return (if Z.of_nat (length I) >=? k then py_slice_to I k
          else np.pad_right I (k - Z.of_nat (length I)) (-1)).

(** numpy.py:96-106: the loop over [indices]. *)
Fixpoint lookup_documents (this : NumpyVectorStore DS) (indices : list Z)
    : outcome (list Document) :=
  match indices with
  | [] => Return []
  | i :: rest =>
      if bool_decide (i = -1) then
        (* This happens when not enough docs are returned. *)
        lookup_documents this rest
      else
        _id ← dict_getitem (index_to_docstore_id this) i;
        match search (docstore this) _id with
        | IsDocument doc =>
            docs ← lookup_documents this rest; Return (doc :: docs)
        | NotDocument got => Raise (ValueError_could_not_find _id got)
        end
  end.

(** numpy.py:80-106 *)
Definition similarity_search (query : string) (k : Z)
    : method DS (list Document) :=
  (this <- gets self;;
   lift (indices ← similarity_indices this query k;
         lookup_documents this indices))%method.

(** numpy.py:130-136: the loop over [selected_indices]. *)
Fixpoint lookup_selected (this : NumpyVectorStore DS) (indices : list Z)
    : outcome (list Document) :=
  match indices with
  | [] => Return []
  | i :: rest =>
      _id ← dict_getitem (index_to_docstore_id this) i;
      match search (docstore this) _id with
      | IsDocument doc =>
          docs ← lookup_selected this rest; Return (doc :: docs)
      | NotDocument got => Raise (ValueError_could_not_find _id got)
      end
  end.

(** numpy.py:108-137 *)
Definition max_marginal_relevance_search (query : string) (k : Z)
    (fetch_k : Z) : method DS (list Document) :=
  (this <- gets self;;
   lift (let embedding := embedding_function this query in
         '(_, indices) ← ndarray_search (index this)
                           [np.as_float32 embedding] fetch_k;
         indices_0 ← py_getitem indices 0;
         (* -1 happens when not enough docs are returned. *)
         embeddings ← for_each (ndarray_reconstruct (index this))
                        (filter (λ i, i ≠ -1) indices_0);
         mmr_selected ← maximal_marginal_relevance embedding embeddings k;
         selected_indices ← for_each (py_getitem indices_0) mmr_selected;
         lookup_selected this selected_indices))%method.

End NumpyVectorStore.

(** ** Construction *)

(** The interface [langchain.embeddings.base.Embeddings]. *)
Record Embeddings := {
  embed_documents : list string → list (list float64);
  embed_query : string → list float64;
}.

(** numpy.py:139-174. [str(i)] is [pretty i]. *)
Definition from_texts (texts : list string) (embedding : Embeddings)
    (metadatas : option (list (gmap string string)))
    : outcome (NumpyVectorStore InMemoryDocstore) :=
  index ← np.array (embed_documents embedding texts);
  documents ← make_documents metadatas 0 texts;
  (* `str(i)` instead of `str(uuid.uuid4())` for ease of unit-testing *)
  let index_to_id : gmap Z string :=
    py_dict ((λ i, (Z.of_nat i, pretty i)) <$> seq 0 (length documents)) in
  docstore ← (entries ← for_each (λ '(i, doc),
                          _id ← dict_getitem index_to_id (Z.of_nat i);
                          Return (_id, doc))
                        (imap (λ i doc, (i, doc)) documents);
              Return {| _dict := py_dict entries |});
  Return {| embedding_function := embed_query embedding;
            index := index;
            docstore := docstore;
            index_to_docstore_id := index_to_id |}.

(** ** Vocabulary of the statements *)

(** The [float32] vector an embedding is stored or searched as. *)
Definition embedding32 {D} (this : NumpyVectorStore D) (text : string)
    : list float32 :=
  np.as_float32 (embedding_function this text).

(** The squared distance of the query [q] to the row [r] as line 92
    computes it: the differences, their squares and the sum, each rounded
    to [float32]. *)
Definition sqdist (q r : list float32) : float32 :=
  np.sum_row ((λ x, f32.mul x x) <$> zip_with f32.sub r q).

(** The squared Euclidean distance of two vectors of integers. *)
Definition euclid2 (q r : list Z) : Z :=
  foldr Z.add 0 ((λ x, x * x) <$> zip_with Z.sub r q).

(** The width [np.vstack] compares: the number of columns. *)
Definition np_width (a : ndarray) : nat := (np.atleast_2d a).1.

(** Row [i] resolves to [doc]: the id mapping has an id for it and the
    docstore has a document under that id. *)
Definition row_document `{Docstore DS} (this : NumpyVectorStore DS) (i : Z)
    (doc : Document) : Prop :=
  ∃ _id, index_to_docstore_id this !! i = Some _id
         ∧ search (docstore this) _id = IsDocument doc.

(** The two counts the store keeps in step. *)
Definition row_count `{Docstore DS} (this : NumpyVectorStore DS) : nat :=
  np.len (index this).
Definition id_count `{Docstore DS} (this : NumpyVectorStore DS) : nat :=
  size (index_to_docstore_id this).

(** Every row of the index resolves to a document. *)
Definition rows_resolve `{Docstore DS} (this : NumpyVectorStore DS) : Prop :=
  ∀ i : nat, (i < row_count this)%nat →
    ∃ doc, row_document this (Z.of_nat i) doc.

(** The ids are dense: the id mapping has an id for the row indices and
    for nothing else. *)
Definition dense_ids `{Docstore DS} (this : NumpyVectorStore DS) : Prop :=
  ∀ i : Z, is_Some (index_to_docstore_id this !! i)
           ↔ 0 ≤ i < Z.of_nat (row_count this).

(** ** A sort that meets numpy's contract *)

(** A place in numpy's order of floats: the negative infinity, the
    negative numbers, the zeros, the positive numbers, the positive
    infinity, NaN; numbers of one sign by exponent, then by mantissa. *)
Definition sort_key (x : float32) : Z * Z * Z :=
  match x with
  | S754_nan => (3, 0, 0)
  | S754_infinity false => (2, 0, 0)
  | S754_infinity true => (-2, 0, 0)
  | S754_zero _ => (0, 0, 0)
  | S754_finite false m e => (1, e, Zpos m)
  | S754_finite true m e => (-1, - e, Zneg m)
  end.

Definition key_lt (a b : Z * Z * Z) : Prop :=
  a.1.1 < b.1.1
  ∨ (a.1.1 = b.1.1 ∧ (a.1.2 < b.1.2 ∨ (a.1.2 = b.1.2 ∧ a.2 < b.2))).

(** By key, equal keys by ascending index. *)
Definition key_then_index (D : list float32) (i j : nat) : Prop :=
  np.sort_lt (D !!! i) (D !!! j) = true
  ∨ (np.sort_lt (D !!! j) (D !!! i) = false ∧ (i ≤ j)%nat).

#[global] Instance key_then_index_dec D i j : Decision (key_then_index D i j).
Proof. unfold key_then_index. apply _. Defined.

Definition stable_argsort : np.ArgSort :=
  λ D, merge_sort (key_then_index D) (seq 0 (length D)).

(** ** Small stores to run the code on *)

(** The embedding of the end-to-end example of the specification, with a
    three-component vector for one more word. *)
Definition pys (l : list Z) : list float64 := f64.of_Z <$> l.
Definition f32s (l : list Z) : list float32 := f32.of_Z <$> l.

Definition toy_embed (text : string) : list float64 :=
  if String.eqb text "one" then pys [1; 0]
  else if String.eqb text "two" then pys [0; 1]
  else if String.eqb text "three" then pys [1; 1]
  else if String.eqb text "wide" then pys [1; 2; 3]
  else pys [0; 0].

Definition toy_embeddings : Embeddings :=
  {| embed_documents := fmap toy_embed; embed_query := toy_embed |}.

Definition toy_uuid4 (n : nat) : string := "uuid-" +:+ pretty n.

Definition toy_mmr (q : list float64) (candidates : list (list float32))
    (k : Z) : outcome (list Z) :=
  Return (Z.of_nat <$> seq 0 (Nat.min (Z.to_nat k) (length candidates))).

Definition doc_of (text : string) : Document :=
  {| page_content := text; metadata := ∅ |}.

(** What [from_texts(["one", "two", "three"], toy_embeddings)] builds. *)
Definition toy_store : NumpyVectorStore InMemoryDocstore :=
  {| embedding_function := toy_embed;
     index := Arr2 2 (f32s <$> [[1; 0]; [0; 1]; [1; 1]]);
     docstore := {| _dict := py_dict [("0", doc_of "one"); ("1", doc_of "two");
                                      ("2", doc_of "three")] |};
     index_to_docstore_id := py_dict [(0, "0"); (1, "1"); (2, "2")] |}.

Definition toy_world : world InMemoryDocstore :=
  {| self := toy_store; uuid_calls := 0 |}.

(** What [from_texts([], toy_embeddings)] builds. *)
Definition empty_store : NumpyVectorStore InMemoryDocstore :=
  {| embedding_function := toy_embed;
     index := Arr1 [];
     docstore := {| _dict := ∅ |};
     index_to_docstore_id := ∅ |}.

Definition empty_world : world InMemoryDocstore :=
  {| self := empty_store; uuid_calls := 0 |}.

(** The same three rows behind a docstore that cannot add. *)
Definition readonly_store : NumpyVectorStore ReadOnlyDocstore :=
  {| embedding_function := toy_embed;
     index := Arr2 2 (f32s <$> [[1; 0]; [0; 1]; [1; 1]]);
     docstore := {| ro_dict := py_dict [("0", doc_of "one"); ("1", doc_of "two");
                                        ("2", doc_of "three")] |};
     index_to_docstore_id := py_dict [(0, "0"); (1, "1"); (2, "2")] |}.

Definition readonly_world : world ReadOnlyDocstore :=
  {| self := readonly_store; uuid_calls := 0 |}.

(** A store whose id mapping names a document the docstore does not have. *)
Definition torn_store : NumpyVectorStore InMemoryDocstore :=
  {| embedding_function := toy_embed;
     index := Arr2 2 (f32s <$> [[1; 0]; [0; 1]]);
     docstore := {| _dict := py_dict [("0", doc_of "one")] |};
     index_to_docstore_id := py_dict [(0, "0"); (1, "1")] |}.

Definition torn_world : world InMemoryDocstore :=
  {| self := torn_store; uuid_calls := 0 |}.

(** ** More vocabulary and stores, for the properties beside the claims *)

(** A docstore whose [add], when it returns, leaves what [search] gives
    for the ids it was not given. *)
Class DocstoreKeeps (D : Type) `{Docstore D} : Prop :=
  add_keeps f d texts d' _id :
    add = Some f → f d texts = (d', None) →
    texts !! _id = None → search d' _id = search d _id.

(** [metadatas], when it is a list with entries, has one for each of [n]
    texts. *)
Definition metadatas_cover (metadatas : option (list (gmap string string)))
    (n : nat) : Prop :=
  match metadatas with
  | None | Some [] => True
  | Some l => (n ≤ length l)%nat
  end.

(** An [AddableMixin] docstore whose [add] raises whatever it is given and
    keeps nothing, as a store that is full or out of reach would. *)
Record FailingDocstore := { failing_dict : gmap string Document }.

#[global] Instance FailingDocstore_docstore : Docstore FailingDocstore := {|
  search d _id :=
    match failing_dict d !! _id with
    | Some doc => IsDocument doc
    | None => NotDocument ("ID " +:+ _id +:+ " not found.")
    end;
  add := Some (λ d texts, (d, Some "docstore is full"%string));
|}.

(** The three rows of [toy_store] behind a docstore whose [add] raises. *)
Definition failing_world : world FailingDocstore :=
  {| self := {| embedding_function := toy_embed;
                index := Arr2 2 (f32s <$> [[1; 0]; [0; 1]; [1; 1]]);
                docstore := {| failing_dict :=
                  py_dict [("0", doc_of "one"); ("1", doc_of "two");
                           ("2", doc_of "three")] |};
                index_to_docstore_id := py_dict [(0, "0"); (1, "1"); (2, "2")] |};
     uuid_calls := 0 |}.

(** Two rows, the second of which has no id. *)
Definition unmapped_world : world InMemoryDocstore :=
  {| self := {| embedding_function := toy_embed;
                index := Arr2 2 (f32s <$> [[1; 0]; [0; 1]]);
                docstore := {| _dict := py_dict [("0", doc_of "one")] |};
                index_to_docstore_id := py_dict [(0, "0")] |};
     uuid_calls := 0 |}.

(** A matrix of shape (0, 2), as a store built on [np.empty((0, 2))] has. *)
Definition empty_matrix_world : world InMemoryDocstore :=
  {| self := {| embedding_function := toy_embed;
                index := Arr2 2 [];
                docstore := {| _dict := ∅ |};
                index_to_docstore_id := ∅ |};
     uuid_calls := 0 |}.

(** The rows of [toy_store] under an embedding function that gives every
    query the one number 1. *)
Definition scalar_query_world : world InMemoryDocstore :=
  {| self := {| embedding_function := λ _, pys [1];
                index := Arr2 2 (f32s <$> [[1; 0]; [0; 1]; [1; 1]]);
                docstore := {| _dict := py_dict [("0", doc_of "one");
                                 ("1", doc_of "two"); ("2", doc_of "three")] |};
                index_to_docstore_id := py_dict [(0, "0"); (1, "1"); (2, "2")] |};
     uuid_calls := 0 |}.

(** Two rows whose order by distance to the origin the rounding of line 92
    turns around: the first is the nearer, and is computed the farther. *)
Definition round_embed (text : string) : list float64 :=
  if String.eqb text "a" then pys [1; 1; 4096; 0]
  else if String.eqb text "b" then pys [4096; 1; 1; 1]
  else pys [0; 0; 0; 0].

Definition round_embeddings : Embeddings :=
  {| embed_documents := fmap round_embed; embed_query := round_embed |}.

(** What [from_texts(["a", "b"], round_embeddings)] builds. *)
Definition round_store : NumpyVectorStore InMemoryDocstore :=
  {| embedding_function := round_embed;
     index := Arr2 4 [f32s [1; 1; 4096; 0]; f32s [4096; 1; 1; 1]];
     docstore := {| _dict := py_dict [("0", doc_of "a"); ("1", doc_of "b")] |};
     index_to_docstore_id := py_dict [(0, "0"); (1, "1")] |}.

Definition round_world : world InMemoryDocstore :=
  {| self := round_store; uuid_calls := 0 |}.





(** * Properties *)

(** ** Outcomes, documents and the numpy pieces *)

Lemma outcome_bind_Return {A B} (a : A) (f : A → outcome B) :
  Return a ≫= f = f a.
Proof. reflexivity. Qed.

Lemma make_documents_raises metadatas i texts e :
  make_documents metadatas i texts = Raise e → ∃ j, e = IndexError j.
Proof.
  revert i. induction texts as [|text rest IH]; intros i; simpl; [done|].
  destruct (metadata_at metadatas i) as [m|e'] eqn:Hm; simpl.
  - destruct (make_documents metadatas (S i) rest) eqn:Hrest; simpl; [done|].
    intros [= ->]. by eapply IH.
  - intros [= ->]. unfold metadata_at in Hm.
    repeat case_match; simplify_eq; eauto.
Qed.

Lemma make_documents_lookup metadatas i texts documents :
  make_documents metadatas i texts = Return documents →
  length documents = length texts
  ∧ ∀ j text, texts !! j = Some text →
      ∃ m, documents !! j = Some {| page_content := text; metadata := m |}.
Proof.
  revert i documents. induction texts as [|text rest IH]; intros i documents;
    simpl.
  - intros [= <-]. split; [done|]. intros j text Hj. by destruct j.
  - destruct (metadata_at metadatas i) as [m|] eqn:Hm; simpl; [|done].
    destruct (make_documents metadatas (S i) rest) as [docs|] eqn:Hrest;
      simpl; [|done].
    intros [= <-]. destruct (IH _ _ Hrest) as [Hlen Hlook].
    split; [simpl; by rewrite Hlen|].
    intros [|j] text' Hj; simpl in *; [simplify_eq; eauto|by apply Hlook].
Qed.

Lemma for_each_lookup {A B} (f : A → outcome B) l ys :
  for_each f l = Return ys →
  length ys = length l
  ∧ ∀ i x, l !! i = Some x → ∃ y, ys !! i = Some y ∧ f x = Return y.
Proof.
  revert ys. induction l as [|x l IH]; intros ys; simpl.
  - intros [= <-]. split; [done|]. intros i x Hi. by destruct i.
  - destruct (f x) as [y|] eqn:Hfx; simpl; [|done].
    destruct (for_each f l) as [ys'|] eqn:Hrest; simpl; [|done].
    intros [= <-]. destruct (IH _ eq_refl) as [Hlen Hlook].
    split; [simpl; by rewrite Hlen|].
    intros [|i] x' Hi; simpl in *; [simplify_eq; eauto|by apply Hlook].
Qed.

Lemma np_array_raises vs e : np.array vs = Raise e → e = Numpy_ValueError.
Proof. unfold np.array. repeat case_match; congruence. Qed.

Lemma np_vstack_raises a b e : np.vstack a b = Raise e → e = Numpy_ValueError.
Proof.
  unfold np.vstack. do 2 destruct (np.atleast_2d _).
  case_match; congruence.
Qed.

(** [np.array] returns on the empty list and on vectors of one width. *)
Lemma np_array_Return vs a :
  np.array vs = Return a →
  (vs = [] ∧ a = Arr1 [])
  ∨ (∃ d, vs ≠ [] ∧ a = Arr2 d (np.as_float32 <$> vs)
          ∧ Forall (λ r, length r = d) vs).
Proof.
  unfold np.array. destruct vs as [|v vs']; [intros [= <-]; by left|].
  case_match eqn:Hall; [|done]. intros [= <-]. right. exists (length v).
  split_and!; [done..|].
  apply Is_true_true, forallb_True in Hall.
  eapply Forall_impl; [exact Hall|].
  intros r Hr. simpl in Hr. by apply Nat.eqb_eq, Is_true_true.
Qed.

Lemma np_array_same_width d vs :
  vs ≠ [] → Forall (λ r, length r = d) vs →
  np.array vs = Return (Arr2 d (np.as_float32 <$> vs)).
Proof.
  intros Hne Hall. destruct vs as [|v vs']; [done|]. unfold np.array.
  pose proof (Forall_inv Hall) as Hv. simpl in Hv. rewrite Hv.
  assert (forallb (λ r, Nat.eqb (length r) d) (v :: vs') = true) as ->;
    [|done].
  apply Is_true_true, forallb_True. eapply Forall_impl; [exact Hall|].
  intros r Hr. simpl. by apply Is_true_true, Nat.eqb_eq.
Qed.

Lemma np_array_vstack_raises a vs e :
  (new_rows ← np.array vs; np.vstack a new_rows) = Raise e →
  e = Numpy_ValueError.
Proof.
  destruct (np.array vs) as [b|e'] eqn:Harr; simpl.
  - apply np_vstack_raises.
  - intros [= <-]. by eapply np_array_raises.
Qed.

(** A vector of another width makes the stacking fail. *)
Lemma np_array_vstack_mismatch a vs v :
  v ∈ vs → length v ≠ np_width a →
  (new_rows ← np.array vs; np.vstack a new_rows) = Raise Numpy_ValueError.
Proof.
  intros Hv Hne. destruct (np.array vs) as [b|e] eqn:Harr; simpl.
  2:{ by rewrite (np_array_raises _ _ Harr). }
  apply np_array_Return in Harr as [[-> _]|(d & _ & -> & Hall)].
  { by apply elem_of_nil in Hv. }
  unfold np.vstack, np_width in *. destruct (np.atleast_2d a) as [da ra].
  simpl in *. rewrite Forall_forall in Hall. specialize (Hall _ Hv).
  destruct (Nat.eqb_spec da d); [lia|done].
Qed.

(** Stacking a batch under a matrix: the batch is not empty unless the
    matrix has no columns, and its rows go below the rows there are. *)
Lemma np_array_vstack_Return d rows vs stacked :
  (0 < d ∨ 0 < length vs)%nat →
  (new_rows ← np.array vs; np.vstack (Arr2 d rows) new_rows) = Return stacked →
  stacked = Arr2 d (rows ++ (np.as_float32 <$> vs)).
Proof.
  intros Hpos. destruct (np.array vs) as [b|e'] eqn:Harr; simpl; [|done].
  apply np_array_Return in Harr as [[-> ->]|(d' & _ & -> & _)];
    unfold np.vstack; simpl.
  - destruct (Nat.eqb_spec d 0); [simpl in Hpos; lia|done].
  - destruct (Nat.eqb_spec d d'); [|done]. by intros [= <-].
Qed.

Lemma sub_broadcast_same_width r q :
  length r = length q → np.sub_broadcast r q = zip_with f32.sub r q.
Proof. intros Hlen. unfold np.sub_broadcast. by rewrite Hlen, Nat.eqb_refl. Qed.

(** Lines 90-92 compute the squared distance of the query to every row. *)
Lemma np_subtract_matrix d rows q :
  Forall (λ r, length r = d) rows → length q = d →
  np.subtract (Arr2 d rows) q
  = Return (Arr2 d ((λ r, zip_with f32.sub r q) <$> rows)).
Proof.
  intros Hwf Hq. unfold np.subtract, np.broadcast_dim.
  rewrite Hq, Nat.eqb_refl.
  do 2 f_equal. apply Forall_fmap_ext. eapply Forall_impl; [exact Hwf|].
  intros r Hr. simpl. apply sub_broadcast_same_width. congruence.
Qed.

Lemma np_sum_square_sqdist d rows q :
  np.sum_axis1 (np.square (Arr2 d ((λ r, zip_with f32.sub r q) <$> rows)))
  = Return (sqdist q <$> rows).
Proof.
  unfold np.sum_axis1, np.square. by rewrite <- !list_fmap_compose.
Qed.

(** The rows a batch of texts is stored as. *)
Lemma as_float32_embeddings {D} (this : NumpyVectorStore D)
    (items : list string) :
  np.as_float32 <$> (embedding_function this <$> items)
  = embedding32 this <$> items.
Proof. by rewrite <- list_fmap_compose. Qed.

Lemma length_embedding32 {D} (this : NumpyVectorStore D) text :
  length (embedding32 this text) = length (embedding_function this text).
Proof. apply length_fmap. Qed.

(** The length of a row is fuel enough for its pairwise sum. *)
Lemma pairwise_sum_upto_enough fuel a :
  (length a ≤ fuel)%nat → np.pairwise_sum_upto fuel a = np.pairwise_sum a.
Proof.
  unfold np.pairwise_sum. revert a.
  induction (lt_wf fuel) as [fuel _ IH]. intros a Hlen.
  destruct (decide (128 < length a)%nat) as [Hbig|Hsmall].
  - destruct fuel as [|fuel]; [lia|].
    destruct (length a) as [|n] eqn:Hn; [lia|].
    cbn [np.pairwise_sum_upto]. rewrite Hn.
    destruct (Nat.ltb_spec 128 (S n)); [|lia].
    set (n2 := (S n / 2 - (S n / 2) mod 8)%nat).
    assert (64 ≤ S n / 2)%nat by (apply Nat.div_le_lower_bound; lia).
    assert (S n / 2 < S n)%nat by (apply Nat.div_lt; lia).
    assert ((S n / 2) mod 8 < 8)%nat by (apply Nat.mod_upper_bound; lia).
    assert (length (take n2 a) = n2) as Htake
      by (rewrite length_take; unfold n2; lia).
    assert (length (drop n2 a) = (S n - n2)%nat) as Hdrop
      by (rewrite length_drop; lia).
    rewrite (IH fuel) by (rewrite ?Htake; unfold n2; lia).
    rewrite (IH fuel (ltac:(lia)) (drop n2 a)) by (rewrite Hdrop; unfold n2; lia).
    rewrite (IH n) by (rewrite ?Htake; unfold n2; lia).
    rewrite (IH n (ltac:(lia)) (drop n2 a)) by (rewrite Hdrop; unfold n2; lia).
    done.
  - assert (∀ f, np.pairwise_sum_upto f a = np.sum_block a) as Hblock.
    { intros [|f]; [done|]. cbn [np.pairwise_sum_upto].
      by destruct (Nat.ltb_spec 128 (length a)); [lia|]. }
    by rewrite !Hblock.
Qed.

(** ** Python dictionaries built entry by entry *)

Section py_dict.
Context `{Countable K} {V : Type}.
Implicit Types entries : list (K * V).

Lemma py_dict_snoc entries k v :
  py_dict (entries ++ [(k, v)]) = <[k := v]> (py_dict entries).
Proof. unfold py_dict. by rewrite foldl_app. Qed.

Lemma py_dict_is_Some entries k :
  is_Some (py_dict entries !! k) ↔ k ∈ entries.*1.
Proof.
  induction entries as [|[k' v'] entries IH] using rev_ind.
  - unfold py_dict. simpl. rewrite lookup_empty, elem_of_nil.
    split; [by intros []|done].
  - rewrite py_dict_snoc, fmap_app, elem_of_app, lookup_insert_is_Some, IH.
    simpl. rewrite list_elem_of_singleton.
    destruct (decide (k' = k)); intuition congruence.
Qed.

Lemma py_dict_lookup entries i k v :
  NoDup entries.*1 → entries !! i = Some (k, v) →
  py_dict entries !! k = Some v.
Proof.
  revert i. induction entries as [|[k' v'] entries IH] using rev_ind;
    intros i; [done|].
  rewrite fmap_app, py_dict_snoc. simpl. intros Hnd Hi.
  apply NoDup_app in Hnd as (Hnd & Hdisj & _).
  destruct (decide (i < length entries)%nat) as [Hlt|Hge].
  - rewrite lookup_app_l in Hi by done.
    rewrite lookup_insert_ne; [by eapply IH|].
    intros ->. eapply Hdisj; [|by apply list_elem_of_singleton].
    apply list_elem_of_fmap. exists (k, v). split; [done|].
    by eapply list_elem_of_lookup_2.
  - rewrite lookup_app_r in Hi by lia.
    destruct (i - length entries)%nat; simpl in Hi; [|done].
    simplify_eq. by rewrite lookup_insert_eq.
Qed.
End py_dict.

(** A dictionary whose keys are [0 .. n-1] has [n] entries. *)
Lemma size_dense (m : gmap Z string) (n : nat) :
  (∀ i, is_Some (m !! i) ↔ 0 ≤ i < Z.of_nat n) → size m = n.
Proof.
  intros Hdense.
  assert (dom m = list_to_set (Z.of_nat <$> seq 0 n)) as Hdom.
  { apply set_eq. intros i.
    rewrite elem_of_dom, Hdense, elem_of_list_to_set, list_elem_of_fmap.
    setoid_rewrite elem_of_seq. split.
    - intros Hi. exists (Z.to_nat i). lia.
    - intros (j & -> & Hj). lia. }
  rewrite <- size_dom, Hdom, size_list_to_set, length_fmap, length_seq; [done|].
  apply NoDup_fmap_2; [apply _|apply NoDup_seq].
Qed.

Lemma dense_ids_count `{Docstore DS} (this : NumpyVectorStore DS) :
  dense_ids this → id_count this = row_count this.
Proof. apply size_dense. Qed.

(** ** Sorted lists of indices *)

Lemma StronglySorted_weaken {A} (R R' : relation A) l :
  (∀ x y, x ∈ l → y ∈ l → R x y → R' x y) →
  StronglySorted R l → StronglySorted R' l.
Proof.
  induction l as [|x l IH]; intros Himp; [constructor|].
  rewrite !StronglySorted_cons. intros [Hhd Htl]. split.
  - rewrite Forall_forall in *. intros y Hy. apply Himp; [left|by right|auto].
  - apply IH; [|done]. intros y z Hy Hz. apply Himp; by right.
Qed.


Lemma StronglySorted_take {A} (R : relation A) n l :
  StronglySorted R l → StronglySorted R (take n l).
Proof.
  intros Hsorted. rewrite <- (take_drop n l) in Hsorted.
  by eapply StronglySorted_app_1_l.
Qed.

(** ** numpy's order of floats, and a sort that meets the contract *)

Lemma sort_lt_key x y :
  np.sort_lt x y = true ↔ key_lt (sort_key x) (sort_key y).
Proof.
  unfold np.sort_lt, SFltb, key_lt.
  destruct x as [[]|[]| |[] mx ex], y as [[]|[]| |[] my ey]; simpl;
    try (split; [done|lia]); try (split; [lia|done]).
  - destruct (Z.compare_spec ex ey); simpl;
      [|split; [done|lia]|split; [lia|done]].
    change (Pos.compare_cont Eq mx my) with (mx ?= my)%positive.
    destruct (Pos.compare_spec mx my); simpl;
      try (split; [done|lia]); split; intros; try done; lia.
  - destruct (Z.compare_spec ex ey); simpl;
      [|split; [lia|done]|split; [done|lia]].
    change (Pos.compare_cont Eq mx my) with (mx ?= my)%positive.
    destruct (Pos.compare_spec mx my); simpl;
      try (split; [done|lia]); split; intros; try done; lia.
Qed.

Lemma sort_lt_key_false x y :
  np.sort_lt x y = false ↔ ¬ key_lt (sort_key x) (sort_key y).
Proof. rewrite <- sort_lt_key. by destruct (np.sort_lt x y). Qed.


Lemma sort_le_trans x y z : np.sort_le x y → np.sort_le y z → np.sort_le x z.
Proof.
  unfold np.sort_le. rewrite !sort_lt_key_false. unfold key_lt.
  destruct (sort_key x) as [[? ?] ?], (sort_key y) as [[? ?] ?],
    (sort_key z) as [[? ?] ?]. simpl. lia.
Qed.

Lemma sort_le_total x y : np.sort_le x y ∨ np.sort_le y x.
Proof.
  unfold np.sort_le. rewrite !sort_lt_key_false. unfold key_lt.
  destruct (sort_key x) as [[? ?] ?], (sort_key y) as [[? ?] ?]. simpl. lia.
Qed.

#[global] Instance key_then_index_trans D : Transitive (key_then_index D).
Proof.
  intros i j k. unfold key_then_index.
  rewrite !sort_lt_key, !sort_lt_key_false. unfold key_lt.
  destruct (sort_key (D !!! i)) as [[? ?] ?],
    (sort_key (D !!! j)) as [[? ?] ?], (sort_key (D !!! k)) as [[? ?] ?].
  simpl. lia.
Qed.

#[global] Instance key_then_index_total D : Total (key_then_index D).
Proof.
  intros i j. unfold key_then_index.
  rewrite !sort_lt_key, !sort_lt_key_false. unfold key_lt.
  destruct (sort_key (D !!! i)) as [[? ?] ?],
    (sort_key (D !!! j)) as [[? ?] ?]. simpl. lia.
Qed.

Lemma stable_argsort_contract : @np.ArgSortContract stable_argsort.
Proof.
  split; intros D; unfold np.argsort, stable_argsort.
  - apply merge_sort_Permutation.
  - eapply StronglySorted_weaken; [|apply StronglySorted_merge_sort; apply _].
    intros i j _ _. unfold key_then_index, np.sort_le.
    rewrite !sort_lt_key, !sort_lt_key_false. unfold key_lt.
    destruct (sort_key (D !!! i)) as [[? ?] ?],
      (sort_key (D !!! j)) as [[? ?] ?]. simpl. lia.
Qed.

Section argsort_facts.
Context `{np.ArgSortContract}.

Lemma argsort_length D : length (np.argsort D) = length D.
Proof. by rewrite (np.argsort_perm D), length_seq. Qed.

Lemma argsort_NoDup D : NoDup (np.argsort D).
Proof. rewrite (np.argsort_perm D). apply NoDup_seq. Qed.

Lemma argsort_elem_of D i : i ∈ np.argsort D ↔ (i < length D)%nat.
Proof. rewrite (np.argsort_perm D), elem_of_seq. lia. Qed.
End argsort_facts.

(** ** [add_texts], step by step *)

Section add_texts.
Context `{Docstore DS} (uuid4 : nat → string).
Implicit Types (w : world DS) (texts : iterable).

Local Abbreviation info_of w documents :=
  (full_info uuid4 (id_count (self w)) (uuid_calls w) documents).

Lemma add_texts_unfold docstore_add texts metadatas w :
  add = Some docstore_add →
  add_texts uuid4 texts metadatas w =
    match make_documents metadatas 0 (iterate (iterate texts).2).1 with
    | Raise e => (w, Raise e)
    | Return documents =>
        match new_rows ← np.array
                           (embedding_function (self w) <$> (iterate texts).1);
              np.vstack (index (self w)) new_rows with
        | Raise e => (w, Raise e)
        | Return stacked =>
            let info := info_of w documents in
            let '(d, r) := docstore_add (docstore (self w))
                             (py_dict ((λ e, (e.1.2, e.2)) <$> info)) in
            let w1 := set_docstore d
                        (set_uuid_calls (uuid_calls w + length documents)
                           (set_index stacked w)) in
            match r with
            | Some msg => (w1, Raise (DocstoreError msg))
            | None =>
                (set_index_to_docstore_id
                   (py_dict ((λ e, (e.1.1, e.1.2)) <$> info)
                    ∪ index_to_docstore_id (self w)) w1,
                 Return ((λ e, e.1.2) <$> info))
            end
        end
    end.
Proof.
  intros Hadd. unfold add_texts. rewrite Hadd.
  unfold bind, gets, lift, modify, ret.
  destruct (iterate texts) as [seen texts1]. simpl.
  destruct (iterate texts1) as [seen_again texts2]. simpl.
  destruct (make_documents metadatas 0 seen_again) as [documents|e]; [|done].
  simpl. destruct (np.array _) as [new_rows|e]; [|done]. simpl.
  destruct (np.vstack _ new_rows) as [stacked|e]; [|done]. simpl.
  destruct (docstore_add _ _) as [d [msg|]]; done.
Qed.

(** The ids of [full_info] are the next draws of [uuid4], its row indices
    the next integers. *)
Lemma full_info_ids w documents :
  (λ e, e.1.2) <$> info_of w documents
  = uuid4 <$> seq (uuid_calls w) (length documents).
Proof.
  unfold full_info. apply list_eq. intros i.
  rewrite !list_lookup_fmap, list_lookup_imap.
  destruct (documents !! i) as [doc|] eqn:Hi; simpl.
  - apply lookup_lt_Some in Hi. by rewrite lookup_seq_lt.
  - apply lookup_ge_None in Hi. by rewrite lookup_seq_ge.
Qed.

Lemma full_info_rows w documents :
  (λ e, e.1.1) <$> info_of w documents
  = Z.of_nat <$> seq (id_count (self w)) (length documents).
Proof.
  unfold full_info. apply list_eq. intros i.
  rewrite !list_lookup_fmap, list_lookup_imap.
  destruct (documents !! i) as [doc|] eqn:Hi; simpl.
  - apply lookup_lt_Some in Hi. by rewrite lookup_seq_lt.
  - apply lookup_ge_None in Hi. by rewrite lookup_seq_ge.
Qed.

(** The state a returning [add_texts] leaves, for texts in a list. *)
Lemma add_texts_list_Return items metadatas w w' ids d rows :
  index (self w) = Arr2 d rows →
  (0 < d ∨ 0 < length items)%nat →
  add_texts uuid4 (PyList items) metadatas w = (w', Return ids) →
  ∃ docstore_add documents ds,
    add = Some docstore_add
    ∧ make_documents metadatas 0 items = Return documents
    ∧ docstore_add (docstore (self w))
        (py_dict ((λ e, (e.1.2, e.2)) <$> info_of w documents))
      = (ds, None)
    ∧ ids = uuid4 <$> seq (uuid_calls w) (length items)
    ∧ index (self w') = Arr2 d (rows ++ (embedding32 (self w) <$> items))
    ∧ docstore (self w') = ds
    ∧ index_to_docstore_id (self w')
      = py_dict ((λ e, (e.1.1, e.1.2)) <$> info_of w documents)
        ∪ index_to_docstore_id (self w)
    ∧ uuid_calls w' = (uuid_calls w + length items)%nat.
Proof.
  intros Hindex Hpos Hrun.
  destruct add as [docstore_add|] eqn:Hadd.
  2:{ unfold add_texts in Hrun. by rewrite Hadd in Hrun. }
  rewrite (add_texts_unfold _ _ _ _ Hadd) in Hrun. simpl in Hrun.
  destruct (make_documents metadatas 0 items) as [documents|] eqn:Hdocs;
    [|done].
  pose proof (make_documents_lookup _ _ _ _ Hdocs) as [Hlen _].
  rewrite Hindex in Hrun.
  destruct (_ ≫= _) as [stacked|] eqn:Hstack; [|done].
  apply np_array_vstack_Return in Hstack as ->; [|by rewrite length_fmap].
  simpl in Hrun.
  destruct (docstore_add _ _) as [ds [msg|]] eqn:Hds; [done|].
  injection Hrun as <- <-.
  exists docstore_add, documents, ds.
  rewrite (full_info_ids w documents), Hlen.
  split_and!; try done.
  simpl. by rewrite as_float32_embeddings.
Qed.

(** For texts in a list, a returning [add_texts] keeps the ids dense:
    rows and ids grow together. *)
Lemma add_texts_list_keeps_dense items metadatas w w' ids d rows :
  index (self w) = Arr2 d rows →
  (0 < d ∨ 0 < length items)%nat →
  dense_ids (self w) →
  add_texts uuid4 (PyList items) metadatas w = (w', Return ids) →
  dense_ids (self w')
  ∧ row_count (self w') = (row_count (self w) + length items)%nat
  ∧ id_count (self w') = row_count (self w').
Proof.
  intros Hindex Hpos Hdense Hrun.
  destruct (add_texts_list_Return _ _ _ _ _ _ _ Hindex Hpos Hrun)
    as (f & documents & ds & _ & Hdocs & _ & _ & Hindex' & _ & Hids & _).
  apply make_documents_lookup in Hdocs as [Hlen _].
  assert (row_count (self w') = (row_count (self w) + length items)%nat)
    as Hrows.
  { unfold row_count. rewrite Hindex', Hindex. simpl.
    by rewrite length_app, length_fmap. }
  assert (dense_ids (self w')) as Hdense'.
  { intros i. rewrite Hrows, Hids, lookup_union_is_Some, py_dict_is_Some.
    rewrite <- list_fmap_compose. unfold compose. simpl.
    rewrite (full_info_rows w documents), (dense_ids_count _ Hdense), Hlen.
    rewrite (Hdense i), list_elem_of_fmap. setoid_rewrite elem_of_seq. split.
    - intros [(j & -> & Hj)|Hi]; lia.
    - intros Hi.
      destruct (decide (i < Z.of_nat (row_count (self w)))); [right; lia|].
      left. exists (Z.to_nat i). lia. }
  split_and!; [done..|]. by apply dense_ids_count.
Qed.

(** For texts in a one-pass iterator, the rows are stacked and no id is
    made, whatever the docstore does with the empty batch it is given. *)
Lemma add_texts_iterator_rows_only docstore_add items metadatas w d rows :
  add = Some docstore_add →
  index (self w) = Arr2 d rows →
  items ≠ [] →
  Forall (λ text, length (embedding_function (self w) text) = d) items →
  index (self (add_texts uuid4 (PyIterator items) metadatas w).1)
  = Arr2 d (rows ++ (embedding32 (self w) <$> items))
  ∧ index_to_docstore_id (self (add_texts uuid4 (PyIterator items) metadatas w).1)
    = index_to_docstore_id (self w).
Proof.
  intros Hadd Hindex Hitems Hwidth. rewrite (add_texts_unfold _ _ _ _ Hadd).
  simpl. rewrite Hindex.
  rewrite (np_array_same_width d), outcome_bind_Return.
  2:{ by destruct items. }
  2:{ by apply Forall_fmap. }
  unfold np.vstack. simpl. rewrite Nat.eqb_refl. simpl.
  rewrite as_float32_embeddings.
  destruct (docstore_add _ _) as [ds [msg|]]; simpl; [done|].
  split; [done|]. unfold py_dict. simpl. by rewrite (left_id_L ∅ (∪)).
Qed.
End add_texts.

(** [from_texts] builds a store with dense ids when the embedding gives one
    vector per text. *)
Lemma from_texts_dense texts embedding metadatas this :
  from_texts texts embedding metadatas = Return this →
  length (embed_documents embedding texts) = length texts →
  dense_ids this
  ∧ row_count this = length texts
  ∧ id_count this = row_count this.
Proof.
  unfold from_texts. intros Hrun Hone.
  destruct (np.array _) as [a|] eqn:Harr; [|done].
  rewrite outcome_bind_Return in Hrun.
  destruct (make_documents _ _ _) as [documents|] eqn:Hdocs; [|done].
  rewrite outcome_bind_Return in Hrun.
  destruct (for_each _ _) as [entries|]; [|done]. simpl in Hrun.
  injection Hrun as <-.
  apply make_documents_lookup in Hdocs as [Hlen _].
  assert (np.len a = length texts) as Hrows.
  { apply np_array_Return in Harr as [[Hnil ->]|(d & _ & -> & _)]; simpl.
    - by rewrite <- Hone, Hnil.
    - by rewrite length_fmap. }
  assert (dense_ids {| embedding_function := embed_query embedding;
                       index := a; docstore := {| _dict := py_dict entries |};
                       index_to_docstore_id :=
                         py_dict ((λ i, (Z.of_nat i, pretty i))
                                  <$> seq 0 (length documents)) |}) as Hdense.
  { intros i. unfold row_count. simpl.
    rewrite py_dict_is_Some, <- list_fmap_compose, Hrows, Hlen.
    rewrite list_elem_of_fmap. setoid_rewrite elem_of_seq. simpl. split.
    - intros (j & -> & Hj). lia.
    - intros Hi. exists (Z.to_nat i). lia. }
  split_and!; [done..|]. by apply dense_ids_count.
Qed.

(** Every row of a store built by [from_texts] resolves to the document of
    its text. *)
Lemma from_texts_rows_resolve texts embedding metadatas this :
  from_texts texts embedding metadatas = Return this →
  length (embed_documents embedding texts) = length texts →
  ∀ i text, texts !! i = Some text →
    ∃ m, row_document this (Z.of_nat i)
           {| page_content := text; metadata := m |}.
Proof.
  unfold from_texts. intros Hrun Hone i text Hi.
  destruct (np.array _) as [a|] eqn:Harr; [|done].
  rewrite outcome_bind_Return in Hrun.
  destruct (make_documents _ _ _) as [documents|] eqn:Hdocs; [|done].
  rewrite outcome_bind_Return in Hrun.
  destruct (for_each _ _) as [entries|] eqn:Hentries; [|done].
  simpl in Hrun. injection Hrun as <-.
  apply make_documents_lookup in Hdocs as [Hlen Hdocs].
  destruct (Hdocs _ _ Hi) as [m Hdoc]. exists m, (pretty i). simpl.
  assert (∀ j, (j < length documents)%nat →
            py_dict ((λ i, (Z.of_nat i, pretty i)) <$> seq 0 (length documents))
              !! Z.of_nat j = Some (pretty j)) as Hids.
  { intros j Hj. apply (py_dict_lookup _ j).
    - rewrite <- list_fmap_compose. apply NoDup_fmap_2; [|apply NoDup_seq].
      intros x y Hxy. simpl in Hxy. lia.
    - by rewrite list_lookup_fmap, lookup_seq_lt. }
  assert (entries = imap (λ j doc, (pretty j, doc)) documents) as ->.
  { apply for_each_lookup in Hentries as [Hlen' Hlook].
    rewrite length_imap in Hlen'.
    apply list_eq. intros j. rewrite list_lookup_imap.
    destruct (documents !! j) as [doc|] eqn:Hj; simpl.
    - destruct (Hlook j (j, doc)) as (y & -> & Hy).
      { by rewrite list_lookup_imap, Hj. }
      simpl in Hy. unfold dict_getitem in Hy.
      rewrite Hids in Hy by by eapply lookup_lt_Some.
      simpl in Hy. by injection Hy as <-.
    - apply lookup_ge_None. apply lookup_ge_None in Hj. lia. }
  assert (i < length documents)%nat as Hlt by by eapply lookup_lt_Some.
  split; [by apply Hids|].
  rewrite (py_dict_lookup _ i (pretty i) {| page_content := text; metadata := m |}).
  - done.
  - replace ((imap (λ j doc, (pretty j, doc)) documents).*1)
      with (pretty <$> seq 0 (length documents)).
    + apply NoDup_fmap_2; [apply _|apply NoDup_seq].
    + apply list_eq. intros j. rewrite !list_lookup_fmap, list_lookup_imap.
      destruct (documents !! j) eqn:Hj; simpl.
      * rewrite lookup_seq_lt by by eapply lookup_lt_Some. done.
      * rewrite lookup_seq_ge; [done|]. by apply lookup_ge_None.
  - by rewrite list_lookup_imap, Hdoc.
Qed.

Lemma from_texts_resolves texts embedding metadatas this :
  from_texts texts embedding metadatas = Return this →
  length (embed_documents embedding texts) = length texts →
  rows_resolve this.
Proof.
  intros Hrun Hone i Hi.
  destruct (from_texts_dense _ _ _ _ Hrun Hone) as (_ & Hrows & _).
  rewrite Hrows in Hi. destruct (lookup_lt_is_Some_2 texts i Hi) as [text Ht].
  destruct (from_texts_rows_resolve _ _ _ _ Hrun Hone i text Ht) as [m Hm].
  eauto.
Qed.

Lemma from_texts_toy :
  from_texts ["one"; "two"; "three"] toy_embeddings None = Return toy_store.
Proof. vm_compute. reflexivity. Qed.

Lemma from_texts_empty : from_texts [] toy_embeddings None = Return empty_store.
Proof. vm_compute. reflexivity. Qed.

Lemma InMemoryDocstore_stores : DocstoreStores InMemoryDocstore.
Proof.
  intros f d texts d' _id doc [= <-] [= <-] Hdoc. simpl.
  by rewrite (lookup_union_Some_l _ _ _ _ Hdoc).
Qed.

Lemma toy_uuid4_inj i j : toy_uuid4 i = toy_uuid4 j → i = j.
Proof.
  unfold toy_uuid4. intros Heq.
  by apply (inj (String.app "uuid-")), (inj pretty) in Heq.
Qed.

(** ** C7: the capability check of [add_texts] *)

(** C7. [add_texts] raises the error of line 56 exactly when the docstore
    has no [add]; it then raises it for every embedding function, texts and
    metadatas, and the index, the id mapping, the docstore and the count of
    drawn uuids are what they were. *)
Theorem add_texts_unsupported_docstore `{Docstore DS} (uuid4 : nat → string)
    (texts : iterable) (metadatas : option (list (gmap string string)))
    (w : world DS) :
  ((add_texts uuid4 texts metadatas w).2 = Raise ValueError_docstore_not_addable
   ↔ add = None)
  ∧ (add = None →
     add_texts uuid4 texts metadatas w
     = (w, Raise ValueError_docstore_not_addable)).
Proof.
  destruct add as [docstore_add|] eqn:Hadd.
  - split; [|intros; discriminate].
    split; [|intros; discriminate]. intros Hraise. exfalso. revert Hraise.
    rewrite (add_texts_unfold _ _ _ _ _ Hadd).
    destruct (make_documents _ _ _) as [documents|e] eqn:Hdocs.
    2:{ apply make_documents_raises in Hdocs as [j ->]. done. }
    destruct (_ ≫= _) as [stacked|e] eqn:Hstack.
    2:{ apply np_array_vstack_raises in Hstack as ->. done. }
    simpl. by destruct (docstore_add _ _) as [d [msg|]].
  - unfold add_texts. rewrite Hadd. done.
Qed.

Lemma add_texts_unsupported_docstore_witness :
  add_texts toy_uuid4 (PyList ["two"]) None readonly_world
  = (readonly_world, Raise ValueError_docstore_not_addable).
Proof.
  apply (add_texts_unsupported_docstore toy_uuid4 (PyList ["two"]) None
           readonly_world).
  reflexivity.
Defined.

(** ** C6: a vector of another width *)

(** C6. When the docstore can add and some vector of the batch has a width
    other than the matrix's, [add_texts] does not return, and it leaves the
    index, the id mapping, the docstore and the uuid count as they were;
    the exception is numpy's shape error whenever the documents of lines
    62-65 were built (no [metadatas[i]] out of range before it). *)
Theorem add_texts_dimension_mismatch `{Docstore DS} (uuid4 : nat → string)
    docstore_add (texts : iterable)
    (metadatas : option (list (gmap string string))) (w : world DS)
    (v : list float64) :
  add = Some docstore_add →
  v ∈ embedding_function (self w) <$> (iterate texts).1 →
  length v ≠ np_width (index (self w)) →
  (add_texts uuid4 texts metadatas w).1 = w
  ∧ ¬ is_Return (add_texts uuid4 texts metadatas w).2
  ∧ (is_Return (make_documents metadatas 0 (iterate (iterate texts).2).1) →
     (add_texts uuid4 texts metadatas w).2 = Raise Numpy_ValueError).
Proof.
  intros Hadd Hv Hwidth. rewrite (add_texts_unfold _ _ _ _ _ Hadd).
  rewrite (np_array_vstack_mismatch _ _ _ Hv Hwidth).
  destruct (make_documents _ _ _) as [documents|e]; simpl; tauto.
Qed.

Lemma add_texts_dimension_mismatch_witness :
  (add_texts toy_uuid4 (PyList ["wide"]) None toy_world).1 = toy_world
  ∧ (add_texts toy_uuid4 (PyList ["wide"]) None toy_world).2
    = Raise Numpy_ValueError.
Proof.
  destruct (add_texts_dimension_mismatch toy_uuid4
              (λ d texts, ({| _dict := texts ∪ _dict d |}, None))
              (PyList ["wide"]) None toy_world (pys [1; 2; 3]))
    as (Hstate & _ & Hraise).
  - reflexivity.
  - vm_compute. left.
  - vm_compute. lia.
  - split; [exact Hstate|]. apply Hraise. vm_compute. exact I.
Defined.

(** ** C8: what a successful [add_texts] appends *)

(** C8 (as the code has it). On the store of [from_texts(["one", "two",
    "three"])], three rows and three ids, [add_texts(iter(["one", "two"]))]
    returns: it stacks the vectors of its two texts as rows 3 and 4, in
    input order, but draws no uuid, returns no id and maps none, the
    second pass over [texts] finding the iterator exhausted. The next call,
    [add_texts(["three"])] with the text in a list, returns one new id,
    stacks row 5 and stores the document under the id, but gives the id to
    row index 3, since line 67 counts the ids and not the rows: row 3 holds
    the vector of "one", and row 5 has no id. *)
Theorem add_texts_ids_not_per_row :
  ∃ w1 w2,
    add_texts toy_uuid4 (PyIterator ["one"; "two"]) None toy_world
    = (w1, Return [])
    ∧ index (self w1)
      = Arr2 2 (f32s <$> [[1; 0]; [0; 1]; [1; 1]; [1; 0]; [0; 1]])
    ∧ index_to_docstore_id (self w1) = index_to_docstore_id toy_store
    ∧ uuid_calls w1 = 0%nat
    ∧ add_texts toy_uuid4 (PyList ["three"]) None w1
      = (w2, Return ["uuid-0"])
    ∧ index (self w2)
      = Arr2 2 (f32s <$> [[1; 0]; [0; 1]; [1; 1]; [1; 0]; [0; 1]; [1; 1]])
    ∧ index_to_docstore_id (self w2) !! 3 = Some "uuid-0"%string
    ∧ index_to_docstore_id (self w2) !! 5 = None
    ∧ search (docstore (self w2)) "uuid-0" = IsDocument (doc_of "three").
Proof.
  eexists _, _. split; [vm_compute; reflexivity|].
  repeat split; vm_compute; reflexivity.
Qed.

(** ** C2: rows and ids under a one-pass iterable *)

(** C2 (as the code has it). On the store of [from_texts(["one", "two",
    "three"])], where rows and ids are three each, [add_texts(iter(["two"]))]
    returns the empty list of ids, and leaves four rows and three ids: the
    first pass over [texts] embedded the text, the second pass found the
    iterator exhausted and built no document. A search that reaches the
    new row then finds no id for it. *)
Theorem add_texts_iterator_rows_without_ids :
  from_texts ["one"; "two"; "three"] toy_embeddings None = Return toy_store
  ∧ row_count toy_store = 3%nat ∧ id_count toy_store = 3%nat
  ∧ ∃ w', add_texts toy_uuid4 (PyIterator ["two"]) None toy_world
          = (w', Return [])
          ∧ row_count (self w') = 4%nat ∧ id_count (self w') = 3%nat
          ∧ index_to_docstore_id (self w') !! 3 = None
          ∧ (similarity_search (np_argsort := stable_argsort) "two" 4 w').2
            = Raise (KeyError 3).
Proof.
  split; [vm_compute; reflexivity|].
  split; [reflexivity|]. split; [vm_compute; reflexivity|].
  eexists. split; [vm_compute; reflexivity|].
  repeat split; vm_compute; reflexivity.
Qed.

(** With the same text in a list, [add_texts] gives the new row its id. *)
Lemma add_texts_list_rows_with_ids :
  ∃ w', add_texts toy_uuid4 (PyList ["two"]) None toy_world
        = (w', Return ["uuid-0"])
        ∧ row_count (self w') = 4%nat ∧ id_count (self w') = 4%nat.
Proof.
  eexists. split; [vm_compute; reflexivity|].
  split; vm_compute; reflexivity.
Qed.

(** ** The indices and the loop of [similarity_search] *)

Section similarity.
Context `{Docstore DS} `{np.ArgSort}.
Implicit Types (this : NumpyVectorStore DS) (indices : list Z).

Lemma similarity_search_unfold (w : world DS) query k :
  similarity_search query k w
  = (w, indices ← similarity_indices (self w) query k;
        lookup_documents (self w) indices).
Proof. reflexivity. Qed.

(** Lines 93-94: the first [k] entries of the argsort, then as many -1 as
    are missing. *)
Lemma similarity_indices_matrix this query k d rows :
  index this = Arr2 d rows →
  Forall (λ r, length r = d) rows →
  length (embedding_function this query) = d →
  0 ≤ k →
  similarity_indices this query k
  = Return
      ((Z.of_nat <$> take (Z.to_nat k)
          (np.argsort (sqdist (embedding32 this query) <$> rows)))
       ++ replicate
            (Z.to_nat (k - Z.of_nat (length
               (np.argsort (sqdist (embedding32 this query) <$> rows)))))
            (-1)).
Proof.
  intros Hindex Hwf Hq Hk. unfold similarity_indices.
  rewrite <- length_embedding32 in Hq. fold (embedding32 this query).
  rewrite Hindex, (np_subtract_matrix _ _ _ Hwf Hq), outcome_bind_Return.
  rewrite np_sum_square_sqdist, outcome_bind_Return.
  set (I := np.argsort _). rewrite length_fmap. f_equal.
  destruct (Z.geb_spec (Z.of_nat (length I)) k) as [Hge|Hlt].
  - unfold py_slice_to. rewrite bool_decide_true by done.
    replace (Z.to_nat (k - Z.of_nat (length I))) with 0%nat by lia.
    simpl. by rewrite app_nil_r, fmap_take.
  - unfold np.pad_right. by rewrite take_ge by lia.
Qed.

Lemma lookup_documents_pad this indices n :
  lookup_documents this (indices ++ replicate n (-1))
  = lookup_documents this indices.
Proof.
  induction indices as [|i rest IH]; simpl.
  - induction n as [|n IH]; [done|exact IH].
  - case_bool_decide; [done|].
    destruct (dict_getitem _ i); simpl; [|done].
    destruct (search _ _); [|done]. by rewrite IH.
Qed.

Lemma filter_not_pad (sel : list nat) n :
  filter (λ i, i ≠ -1) ((Z.of_nat <$> sel) ++ replicate n (-1))
  = Z.of_nat <$> sel.
Proof.
  rewrite filter_app.
  replace (filter (λ i, i ≠ -1) (replicate n (-1))) with (@nil Z).
  2:{ induction n as [|n IH]; [done|]. simpl.
      by rewrite filter_cons_False by (intros Hne; by apply Hne). }
  rewrite app_nil_r. induction sel as [|i sel IH]; [done|].
  rewrite fmap_cons, filter_cons_True by lia. by rewrite IH.
Qed.

(** When every selected row resolves, the loop returns the documents of the
    selected rows, in the order of the rows. *)
Lemma lookup_documents_Return this indices :
  (∀ i, i ∈ indices → i ≠ -1 → ∃ doc, row_document this i doc) →
  ∃ docs, lookup_documents this indices = Return docs
          ∧ Forall2 (row_document this) (filter (λ i, i ≠ -1) indices) docs.
Proof.
  induction indices as [|i rest IH]; intros Hall; simpl.
  { exists []. split; [done|]. constructor. }
  destruct IH as (docs & Hdocs & Hrel).
  { intros j Hj. apply Hall. by right. }
  case_bool_decide as Hpad.
  - exists docs. split; [done|]. by rewrite filter_cons_False by tauto.
  - destruct (Hall i) as (doc & _id & Hid & Hsearch); [by left|done|].
    exists (doc :: docs). unfold dict_getitem. rewrite Hid. simpl.
    rewrite Hsearch, Hdocs. split; [done|].
    rewrite filter_cons_True by done. constructor; [|done].
    by exists _id.
Qed.

(** What the loop returns, when it returns, is the documents of the
    selected rows, in the order of the rows. *)
Lemma lookup_documents_inv this indices docs :
  lookup_documents this indices = Return docs →
  Forall2 (row_document this) (filter (λ i, i ≠ -1) indices) docs.
Proof.
  revert docs. induction indices as [|i rest IH]; intros docs; simpl.
  { intros [= <-]. constructor. }
  case_bool_decide as Hpad.
  - rewrite filter_cons_False by tauto. apply IH.
  - rewrite filter_cons_True by done. unfold dict_getitem.
    destruct (index_to_docstore_id this !! i) as [_id|] eqn:Hid; simpl;
      [|done].
    destruct (search (docstore this) _id) as [doc|] eqn:Hsearch; [|done].
    destruct (lookup_documents this rest) as [docs'|]; simpl; [|done].
    intros [= <-]. constructor; [by exists _id|by apply IH].
Qed.

(** The loop does not return when the docstore has no document for the id
    of a selected row. *)
Lemma lookup_documents_bad this indices i _id got :
  i ∈ indices → i ≠ -1 →
  index_to_docstore_id this !! i = Some _id →
  search (docstore this) _id = NotDocument got →
  ¬ is_Return (lookup_documents this indices).
Proof.
  intros Hi Hpad Hid Hgot.
  destruct (lookup_documents this indices) as [docs|] eqn:Hrun; [|tauto].
  apply lookup_documents_inv in Hrun.
  assert (i ∈ filter (λ i, i ≠ -1) indices) as Hin
    by by apply list_elem_of_filter.
  apply list_elem_of_lookup in Hin as [p Hp].
  destruct (Forall2_lookup_l _ _ _ _ _ Hrun Hp) as (doc & _ & id' & Hid' & Hdoc).
  congruence.
Qed.

(** When every selected row has an id and the docstore has no document for
    one of them, the loop raises the error of line 104 for such an id. *)
Lemma lookup_documents_not_found this indices :
  (∀ i, i ∈ indices → i ≠ -1 → is_Some (index_to_docstore_id this !! i)) →
  (∃ i _id got, i ∈ indices ∧ i ≠ -1
     ∧ index_to_docstore_id this !! i = Some _id
     ∧ search (docstore this) _id = NotDocument got) →
  ∃ i _id got, i ∈ indices ∧ i ≠ -1
     ∧ index_to_docstore_id this !! i = Some _id
     ∧ search (docstore this) _id = NotDocument got
     ∧ lookup_documents this indices
       = Raise (ValueError_could_not_find _id got).
Proof.
  induction indices as [|i rest IH]; intros Hmapped (j & jid & got & Hj & Hbad).
  { by apply elem_of_nil in Hj. }
  assert (∀ E : ∃ i0 _id got0, i0 ∈ rest ∧ i0 ≠ -1
     ∧ index_to_docstore_id this !! i0 = Some _id
     ∧ search (docstore this) _id = NotDocument got0,
     ∃ i0 _id got0, i0 ∈ i :: rest ∧ i0 ≠ -1
     ∧ index_to_docstore_id this !! i0 = Some _id
     ∧ search (docstore this) _id = NotDocument got0
     ∧ lookup_documents this rest = Raise (ValueError_could_not_find _id got0))
    as Hrest.
  { intros E. destruct IH as (i0 & id0 & got0 & ? & ? & ? & ? & ?); [|done|].
    - intros i0 Hi0. apply Hmapped. by right.
    - exists i0, id0, got0. split_and!; [by right|done..]. }
  simpl. case_bool_decide as Hpad.
  - apply Hrest. exists j, jid, got.
    apply elem_of_cons in Hj as [->|Hj]; [tauto|done].
  - destruct (Hmapped i) as [_id Hid]; [by left|done|].
    unfold dict_getitem. rewrite Hid. simpl.
    destruct (search (docstore this) _id) as [doc|got'] eqn:Hsearch.
    + destruct Hrest as (i0 & id0 & got0 & ? & ? & ? & ? & ->).
      { exists j, jid, got. apply elem_of_cons in Hj as [->|Hj]; [|done].
        destruct Hbad as (_ & Hjid & Hgot). congruence. }
      exists i0, id0, got0. done.
    + exists i, _id, got'. split_and!; [by left|done..].
Qed.
End similarity.

(** The examples of section 8 of the specification. *)
Lemma similarity_search_three :
  (similarity_search (np_argsort := stable_argsort) "three" 1 toy_world).2
  = Return [doc_of "three"].
Proof. vm_compute. reflexivity. Qed.

Lemma similarity_search_one :
  (similarity_search (np_argsort := stable_argsort) "one" 2 toy_world).2
  = Return [doc_of "one"; doc_of "three"].
Proof. vm_compute. reflexivity. Qed.

(** ** C3: the nearest rows, nearest first *)

(** A sort that meets the contract puts the smaller of two keys first. *)
Lemma argsort_two `{np.ArgSortContract} (x y : float32) :
  np.sort_lt y x = true → np.argsort [x; y] = [1; 0]%nat.
Proof.
  intros Hlt. pose proof (np.argsort_perm [x; y]) as Hperm.
  pose proof (np.argsort_sorted [x; y]) as Hsorted. simpl in Hperm.
  symmetry in Hperm. apply Permutation_length_2_inv in Hperm as [Heq|Heq];
    [|done].
  rewrite Heq in Hsorted.
  apply StronglySorted_cons in Hsorted as [Hhd _].
  apply Forall_cons in Hhd as [Hle _]. unfold np.sort_le in Hle.
  simpl in Hle. congruence.
Qed.

(** C3 (as stated) fails. [from_texts] on two texts embedded to
    (1, 1, 4096, 0) and (4096, 1, 1, 1) stores these numbers as they are,
    and the query is embedded to the origin: the first row is the nearer,
    at squared distance 16777218 against 16777219. Line 92 computes
    16777218 for the first row and 16777216 for the second, where
    16777216 + 1 is rounded to 16777216 three times, and the search for
    [k = 1] returns the document of the second row, whatever the sort. *)
Lemma similarity_search_not_nearest :
  from_texts ["a"; "b"] round_embeddings None = Return round_store
  ∧ index round_store = Arr2 4 [f32s [1; 1; 4096; 0]; f32s [4096; 1; 1; 1]]
  ∧ f32.to_Z <$> f32s [1; 1; 4096; 0] = [Some 1; Some 1; Some 4096; Some 0]
  ∧ f32.to_Z <$> f32s [4096; 1; 1; 1] = [Some 4096; Some 1; Some 1; Some 1]
  ∧ f32.to_Z <$> embedding32 round_store "origin"
    = [Some 0; Some 0; Some 0; Some 0]
  ∧ euclid2 [0; 0; 0; 0] [1; 1; 4096; 0] = 16777218
  ∧ euclid2 [0; 0; 0; 0] [4096; 1; 1; 1] = 16777219
  ∧ f32.to_Z (sqdist (embedding32 round_store "origin") (f32s [1; 1; 4096; 0]))
    = Some 16777218
  ∧ f32.to_Z (sqdist (embedding32 round_store "origin") (f32s [4096; 1; 1; 1]))
    = Some 16777216
  ∧ similarity_search (np_argsort := stable_argsort) "origin" 1 round_world
    = (round_world, Return [doc_of "b"])
  ∧ ∀ np_argsort : np.ArgSort, np.ArgSortContract →
      similarity_search "origin" 1 round_world
      = (round_world, Return [doc_of "b"]).
Proof.
  split_and!; try (vm_compute; reflexivity).
  intros np_argsort Hcontract. rewrite similarity_search_unfold.
  rewrite (similarity_indices_matrix round_store "origin" 1 4
             [f32s [1; 1; 4096; 0]; f32s [4096; 1; 1; 1]]);
    [|reflexivity|repeat constructor|reflexivity|lia].
  rewrite outcome_bind_Return, lookup_documents_pad.
  cbn [fmap list_fmap].
  rewrite argsort_two by (vm_compute; reflexivity).
  vm_compute. reflexivity.
Qed.

(** C3 (amended). On a store whose index is a matrix of [n] rows of width
    [d], whose rows all resolve to documents, for a query embedded to width
    [d] and [k ≥ 0]: the search returns the documents of rows [sel], one
    document per row and in that order, where [sel] has [min k n] distinct
    rows, is in numpy's order (non-decreasing, NaN last) of the squared
    distances as line 92 computes them in [float32], and leaves out no row
    that this order puts strictly before one it contains; [k = 0] gives no
    document and [k ≥ n] gives every row. *)
Theorem similarity_search_nearest `{Docstore DS} `{np.ArgSortContract}
    (w : world DS) (query : string) (k : Z) (d : nat)
    (rows : list (list float32)) :
  index (self w) = Arr2 d rows →
  Forall (λ r, length r = d) rows →
  length (embedding_function (self w) query) = d →
  rows_resolve (self w) →
  0 ≤ k →
  ∃ (sel : list nat) (docs : list Document),
    similarity_search query k w = (w, Return docs)
    ∧ Forall2 (λ i doc, row_document (self w) (Z.of_nat i) doc) sel docs
    ∧ length docs = Nat.min (Z.to_nat k) (length rows)
    ∧ NoDup sel
    ∧ Forall (λ i, (i < length rows)%nat) sel
    ∧ StronglySorted
        (λ i j, np.sort_le (sqdist (embedding32 (self w) query) (rows !!! i))
                           (sqdist (embedding32 (self w) query) (rows !!! j)))
        sel
    ∧ (∀ i j, i ∈ sel → (j < length rows)%nat → j ∉ sel →
         np.sort_le (sqdist (embedding32 (self w) query) (rows !!! i))
                    (sqdist (embedding32 (self w) query) (rows !!! j)))
    ∧ (k = 0 → docs = [])
    ∧ (Z.of_nat (length rows) ≤ k → sel ≡ₚ seq 0 (length rows)).
Proof.
  intros Hindex Hwf Hq Hresolve Hk.
  set (q := embedding32 (self w) query).
  set (D := sqdist q <$> rows).
  assert (length D = length rows) as HlenD by apply length_fmap.
  assert (∀ i, (i < length rows)%nat → D !!! i = sqdist q (rows !!! i))
    as Hkey.
  { intros i Hi. unfold D.
    destruct (lookup_lt_is_Some_2 rows i Hi) as [r Hr].
    rewrite (list_lookup_total_correct _ _ _ Hr).
    apply list_lookup_total_correct. by rewrite list_lookup_fmap, Hr. }
  set (sel := take (Z.to_nat k) (np.argsort D)).
  assert (∀ i, i ∈ sel → (i < length rows)%nat) as Hrange.
  { intros i Hi. rewrite <- HlenD. apply argsort_elem_of.
    by eapply subseteq_take. }
  destruct (lookup_documents_Return (self w)
              ((Z.of_nat <$> sel)
               ++ replicate (Z.to_nat (k - Z.of_nat (length (np.argsort D))))
                    (-1)))
    as (docs & Hdocs & Hrel).
  { intros i Hi Hne. apply elem_of_app in Hi as [Hi|Hi].
    - apply list_elem_of_fmap in Hi as (j & -> & Hj).
      apply Hresolve. unfold row_count. rewrite Hindex. simpl.
      by apply Hrange.
    - by apply elem_of_replicate in Hi as [-> _]. }
  rewrite filter_not_pad, Forall2_fmap_l in Hrel.
  assert (length docs = Nat.min (Z.to_nat k) (length rows)) as Hlen.
  { rewrite <- (Forall2_length _ _ _ Hrel). unfold sel.
    by rewrite length_take, argsort_length, HlenD. }
  exists sel, docs. split_and!.
  - rewrite similarity_search_unfold.
    rewrite (similarity_indices_matrix _ _ _ _ _ Hindex Hwf Hq Hk).
    rewrite outcome_bind_Return. f_equal. exact Hdocs.
  - done.
  - done.
  - eapply sublist_NoDup; [apply argsort_NoDup|apply sublist_take].
  - by apply Forall_forall.
  - apply StronglySorted_take.
    eapply StronglySorted_weaken; [|apply (np.argsort_sorted D)].
    intros i j Hi Hj Hle. apply argsort_elem_of in Hi, Hj.
    rewrite <- !Hkey by lia. done.
  - intros i j Hi Hj Hnot.
    assert (j ∈ drop (Z.to_nat k) (np.argsort D)) as Hdrop.
    { assert (j ∈ np.argsort D) as Hin by (apply argsort_elem_of; lia).
      rewrite <- (take_drop (Z.to_nat k) (np.argsort D)) in Hin.
      apply elem_of_app in Hin as [Hin|Hin]; [by destruct Hnot|done]. }
    rewrite <- !Hkey by auto.
    pose proof (np.argsort_sorted D) as Hsorted.
    rewrite <- (take_drop (Z.to_nat k) (np.argsort D)) in Hsorted.
    by eapply (StronglySorted_app_1_elem_of _ _ _ _ _ Hsorted).
  - intros ->. destruct docs; [done|]. simpl in Hlen. lia.
  - intros Hall. unfold sel.
    rewrite take_ge by (rewrite argsort_length; lia).
    by rewrite np.argsort_perm, HlenD.
Qed.

Lemma similarity_search_nearest_witness :
  ∃ docs,
    similarity_search (np_argsort := stable_argsort) "one" 2 toy_world
    = (toy_world, Return docs)
    ∧ length docs = 2%nat
    ∧ docs = [doc_of "one"; doc_of "three"].
Proof.
  destruct (similarity_search_nearest (H0 := stable_argsort)
              (H1 := stable_argsort_contract) toy_world "one" 2 2
              (f32s <$> [[1; 0]; [0; 1]; [1; 1]]))
    as (sel & docs & Hrun & _ & Hlen & _).
  - reflexivity.
  - repeat constructor.
  - reflexivity.
  - intros i Hi. unfold row_count in Hi. simpl in Hi.
    destruct i as [|[|[|i]]]; [| | |lia].
    + exists (doc_of "one"), "0"%string. split; vm_compute; reflexivity.
    + exists (doc_of "two"), "1"%string. split; vm_compute; reflexivity.
    + exists (doc_of "three"), "2"%string. split; vm_compute; reflexivity.
  - lia.
  - exists docs. split; [exact Hrun|]. split; [exact Hlen|].
    pose proof similarity_search_one as Hone. rewrite Hrun in Hone.
    by injection Hone.
Defined.

(** ** C4: rows at equal distance *)




(** ** C9: a row whose document is missing *)

(** C9. Let the loop of [similarity_search] go through [indices]. If the
    docstore gives something other than a document for the id of one of
    these rows, the search does not return, and, every row index among
    them having an id, it raises the error of line 104 for such an id. If
    every one of these rows resolves to a document, the search returns.
    And whenever it returns, it returns exactly the documents of these
    rows, one per row index and in the order of the row indices: only the
    -1 paddings are passed over. *)
Theorem similarity_search_document_not_found `{Docstore DS} `{np.ArgSort}
    (w : world DS) (query : string) (k : Z) (indices : list Z) :
  similarity_indices (self w) query k = Return indices →
  ((∃ i _id got, i ∈ indices ∧ i ≠ -1
      ∧ index_to_docstore_id (self w) !! i = Some _id
      ∧ search (docstore (self w)) _id = NotDocument got) →
   ¬ is_Return (similarity_search query k w).2
   ∧ ((∀ i, i ∈ indices → i ≠ -1 →
         is_Some (index_to_docstore_id (self w) !! i)) →
      ∃ i _id got, i ∈ indices ∧ i ≠ -1
        ∧ index_to_docstore_id (self w) !! i = Some _id
        ∧ search (docstore (self w)) _id = NotDocument got
        ∧ similarity_search query k w
          = (w, Raise (ValueError_could_not_find _id got))))
  ∧ ((∀ i, i ∈ indices → i ≠ -1 → ∃ doc, row_document (self w) i doc) →
     is_Return (similarity_search query k w).2)
  ∧ (∀ docs, similarity_search query k w = (w, Return docs) →
       Forall2 (row_document (self w)) (filter (λ i, i ≠ -1) indices) docs).
Proof.
  intros Hindices. rewrite similarity_search_unfold, Hindices.
  rewrite outcome_bind_Return. simpl. split_and!.
  - intros Hbad. split.
    + destruct Hbad as (i & _id & got & Hi & Hpad & Hid & Hgot).
      by eapply lookup_documents_bad.
    + intros Hmapped.
      destruct (lookup_documents_not_found _ _ Hmapped Hbad)
        as (i & _id & got & ? & ? & ? & ? & ->).
      by exists i, _id, got.
  - intros Hgood.
    by destruct (lookup_documents_Return (self w) indices Hgood)
      as (docs & -> & _).
  - intros docs [= Hrun]. by apply lookup_documents_inv.
Qed.

Lemma similarity_search_document_not_found_witness :
  ∃ _id got,
    similarity_search (np_argsort := stable_argsort) "one" 2 torn_world
    = (torn_world, Raise (ValueError_could_not_find _id got)).
Proof.
  destruct (similarity_search_document_not_found (H0 := stable_argsort)
              torn_world "one" 2 [0; 1])
    as [Hbad _].
  - vm_compute. reflexivity.
  - destruct Hbad as [_ Hraise].
    + exists 1, "1"%string, "ID 1 not found."%string.
      split_and!; [right; left|lia|vm_compute; reflexivity
                  |vm_compute; reflexivity].
    + destruct Hraise as (i & _id & got & _ & _ & _ & _ & Hrun).
      * intros i Hi _. simpl.
        apply elem_of_cons in Hi as [->|Hi]; [by eexists|].
        apply elem_of_cons in Hi as [->|Hi]; [by eexists|].
        by apply elem_of_nil in Hi.
      * exists _id, got. exact Hrun.
Defined.

(** ** C5: the store with no rows *)

(** C5 (as the code has it). The store that [from_texts([])] builds holds
    [np.array([])], of shape (0,): a search on it with [k = 1] raises inside
    numpy and returns no list. *)
Theorem similarity_search_empty_store_raises :
  from_texts [] toy_embeddings None = Return empty_store
  ∧ row_count empty_store = 0%nat
  ∧ similarity_search (np_argsort := stable_argsort) "one" 1 empty_world
    = (empty_world, Raise Numpy_ValueError).
Proof. repeat split; vm_compute; reflexivity. Qed.

(** On an index of one dimension, such as the [np.array([])] of
    [from_texts([])], the search raises inside numpy whatever the query
    and [k] are: the shapes do not broadcast, or there is no axis 1 to sum
    over. *)
Lemma similarity_search_one_dimensional `{Docstore DS} `{np.ArgSort}
    (w : world DS) (query : string) (k : Z) (v : list float32) :
  index (self w) = Arr1 v →
  similarity_search query k w = (w, Raise Numpy_ValueError)
  ∨ similarity_search query k w = (w, Raise Numpy_AxisError).
Proof.
  intros Hindex. rewrite similarity_search_unfold.
  unfold similarity_indices, np.subtract. rewrite Hindex.
  destruct (np.broadcast_dim _ _); [right|left]; done.
Qed.

(** On a matrix with no rows (shape (0, d), as [np.empty((0, d))] gives),
    the padding branch of line 94 makes the search return no document. *)
Lemma similarity_search_empty_matrix `{Docstore DS} `{np.ArgSortContract}
    (w : world DS) (query : string) (k : Z) (d : nat) :
  index (self w) = Arr2 d [] →
  length (embedding_function (self w) query) = d →
  0 < k →
  similarity_search query k w = (w, Return []).
Proof.
  intros Hindex Hq Hk. rewrite similarity_search_unfold.
  rewrite (similarity_indices_matrix _ _ _ _ _ Hindex (Forall_nil_2 _) Hq)
    by lia.
  rewrite outcome_bind_Return, lookup_documents_pad.
  assert (np.argsort (sqdist (embedding32 (self w) query) <$> []) = [])
    as ->; [|by rewrite take_nil].
  apply length_zero_iff_nil. by rewrite argsort_length.
Qed.

(** ** C1: maximal marginal relevance search *)

(** C1 (as the code has it). [max_marginal_relevance_search] calls
    [self.index.search], and [self.index] is a numpy array, which has no
    such method: on every store, for every query, [k] and [fetch_k], and
    whatever the relevance selection is, the call raises [AttributeError]
    and returns no documents. *)
Theorem max_marginal_relevance_search_raises `{Docstore DS}
    (mmr : list float64 → list (list float32) → Z → outcome (list Z))
    (w : world DS) (query : string) (k fetch_k : Z) :
  max_marginal_relevance_search mmr query k fetch_k w
  = (w, Raise (AttributeError "numpy.ndarray" "search")).
Proof. reflexivity. Qed.

(** On the store of [from_texts(["one", "two", "three"])]. *)
Lemma max_marginal_relevance_search_toy :
  max_marginal_relevance_search toy_mmr "one" 1 1 toy_world
  = (toy_world, Raise (AttributeError "numpy.ndarray" "search")).
Proof. reflexivity. Qed.

(** * Properties beside the claims *)

(** ** Construction: [from_texts] *)

Lemma make_documents_metadata metadatas i texts documents :
  make_documents metadatas i texts = Return documents →
  ∀ j doc, documents !! j = Some doc →
    metadata_at metadatas (i + j) = Return (metadata doc)
    ∧ texts !! j = Some (page_content doc).
Proof.
  revert i documents. induction texts as [|text rest IH]; intros i documents;
    simpl.
  - intros [= <-] j doc Hj. by destruct j.
  - destruct (metadata_at metadatas i) as [m|] eqn:Hm; simpl; [|done].
    destruct (make_documents metadatas (S i) rest) as [docs|] eqn:Hrest;
      simpl; [|done].
    intros [= <-] [|j] doc Hj; simpl in Hj.
    + injection Hj as <-. simpl. by rewrite Nat.add_0_r.
    + destruct (IH _ _ Hrest j doc Hj) as [Hmeta Htext].
      split; [|done]. by rewrite Nat.add_succ_r.
Qed.

Lemma make_documents_is_Return metadatas i texts :
  is_Return (make_documents metadatas i texts)
  ↔ texts = [] ∨ metadatas_cover metadatas (i + length texts).
Proof.
  revert i. induction texts as [|text rest IH]; intros i; simpl.
  { split; [by left|done]. }
  assert (is_Return (metadata_at metadatas i)
          ↔ metadatas_cover metadatas (S i)) as Hat.
  { unfold metadata_at, metadatas_cover.
    destruct metadatas as [[|m l]|]; [done| |done].
    destruct ((m :: l) !! i) eqn:Hi; simpl.
    - apply lookup_lt_Some in Hi. simpl in Hi. split; [lia|done].
    - apply lookup_ge_None in Hi. simpl in Hi. split; [done|lia]. }
  assert (metadatas_cover metadatas (i + S (length rest))
          → metadatas_cover metadatas (S i)) as Hmono.
  { unfold metadatas_cover. destruct metadatas as [[|m l]|]; [done| |done].
    lia. }
  destruct (metadata_at metadatas i) as [m|] eqn:Hm; simpl.
  - specialize (IH (S i)).
    destruct (make_documents metadatas (S i) rest) as [docs|]; simpl.
    + split; [|done]. intros _. right.
      apply proj1 in IH. destruct (IH I) as [->|Hc].
      * simpl. rewrite Nat.add_1_r. by apply Hat.
      * by rewrite Nat.add_succ_r.
    + split; [done|]. intros [?|Hc]; [done|].
      apply IH. right. by rewrite Nat.add_succ_r in Hc.
  - split; [done|]. intros [?|Hc]; [done|]. by apply Hat, Hmono.
Qed.

Lemma np_array_is_Return vs :
  is_Return (np.array vs) ↔ ∃ d, Forall (λ r, length r = d) vs.
Proof.
  split.
  - destruct (np.array vs) as [a|] eqn:Harr; [|done]. intros _.
    apply np_array_Return in Harr as [[-> _]|(d & _ & _ & Hall)];
      [by exists 0%nat|by exists d].
  - intros [d Hall]. destruct vs as [|v vs']; [done|].
    by rewrite (np_array_same_width d).
Qed.

(** The store a returning [from_texts] builds. *)
Lemma from_texts_inv texts embedding metadatas this :
  from_texts texts embedding metadatas = Return this →
  ∃ a documents,
    np.array (embed_documents embedding texts) = Return a
    ∧ make_documents metadatas 0 texts = Return documents
    ∧ this = {| embedding_function := embed_query embedding;
                index := a;
                docstore := {| _dict :=
                  py_dict (imap (λ j doc, (pretty j, doc)) documents) |};
                index_to_docstore_id :=
                  py_dict ((λ i, (Z.of_nat i, pretty i))
                           <$> seq 0 (length documents)) |}.
Proof.
  unfold from_texts. intros Hrun.
  destruct (np.array _) as [a|] eqn:Harr; [|done].
  rewrite outcome_bind_Return in Hrun.
  destruct (make_documents _ _ _) as [documents|] eqn:Hdocs; [|done].
  rewrite outcome_bind_Return in Hrun.
  destruct (for_each _ _) as [entries|] eqn:Hentries; [|done].
  simpl in Hrun. injection Hrun as <-. exists a, documents.
  split_and!; [done..|].
  assert (entries = imap (λ j doc, (pretty j, doc)) documents) as ->;
    [|done].
  apply for_each_lookup in Hentries as [Hlen' Hlook].
  rewrite length_imap in Hlen'.
  apply list_eq. intros j. rewrite list_lookup_imap.
  destruct (documents !! j) as [doc|] eqn:Hj; simpl.
  - destruct (Hlook j (j, doc)) as (y & -> & Hy).
    { by rewrite list_lookup_imap, Hj. }
    simpl in Hy. unfold dict_getitem in Hy.
    rewrite (py_dict_lookup _ j (Z.of_nat j) (pretty j)) in Hy.
    + simpl in Hy. by injection Hy as <-.
    + rewrite <- list_fmap_compose. apply NoDup_fmap_2; [|apply NoDup_seq].
      intros x y' Hxy. simpl in Hxy. lia.
    + rewrite list_lookup_fmap, lookup_seq_lt by by eapply lookup_lt_Some.
      done.
  - apply lookup_ge_None. apply lookup_ge_None in Hj. lia.
Qed.

(** The dictionary [{i: str(i) for i in range(n)}]. *)
Lemma range_ids_lookup (n : nat) (i : Z) :
  py_dict ((λ i, (Z.of_nat i, pretty i)) <$> seq 0 n) !! i
  = if bool_decide (0 ≤ i < Z.of_nat n) then Some (pretty (Z.to_nat i))
    else None.
Proof.
  case_bool_decide as Hi.
  - apply (py_dict_lookup _ (Z.to_nat i)).
    + rewrite <- list_fmap_compose. apply NoDup_fmap_2; [|apply NoDup_seq].
      intros x y Hxy. simpl in Hxy. lia.
    + rewrite list_lookup_fmap, lookup_seq_lt by lia. simpl.
      by rewrite Z2Nat.id by lia.
  - apply eq_None_not_Some. rewrite py_dict_is_Some, <- list_fmap_compose.
    rewrite list_elem_of_fmap. setoid_rewrite elem_of_seq.
    intros (j & -> & Hj). simpl in Hi. lia.
Qed.

(** The dictionary [{str(i): doc for i, doc in enumerate(documents)}]. *)
Lemma enumerated_docs_lookup (documents : list Document) (j : nat) doc :
  documents !! j = Some doc →
  py_dict (imap (λ j doc, (pretty j, doc)) documents) !! pretty j = Some doc.
Proof.
  intros Hj. apply (py_dict_lookup _ j).
  - replace ((imap (λ j doc, (pretty j, doc)) documents).*1)
      with (pretty <$> seq 0 (length documents)).
    + apply NoDup_fmap_2; [apply _|apply NoDup_seq].
    + apply list_eq. intros p. rewrite !list_lookup_fmap, list_lookup_imap.
      destruct (documents !! p) eqn:Hp; simpl.
      * rewrite lookup_seq_lt by by eapply lookup_lt_Some. done.
      * rewrite lookup_seq_ge; [done|]. by apply lookup_ge_None.
  - by rewrite list_lookup_imap, Hj.
Qed.

(** X1. When [from_texts] returns a store and the embedding gave one
    vector per text, the store has as many rows as texts and as many ids,
    the ids are those of the row indices [0 .. n-1] and of nothing else,
    and the store embeds queries with [embed_query]. *)
Theorem from_texts_rows_and_ids (texts : list string) (embedding : Embeddings)
    (metadatas : option (list (gmap string string)))
    (this : NumpyVectorStore InMemoryDocstore) :
  from_texts texts embedding metadatas = Return this →
  length (embed_documents embedding texts) = length texts →
  row_count this = length texts
  ∧ id_count this = length texts
  ∧ (∀ i : Z, is_Some (index_to_docstore_id this !! i)
              ↔ 0 ≤ i < Z.of_nat (length texts))
  ∧ embedding_function this = embed_query embedding.
Proof.
  intros Hrun Hone.
  destruct (from_texts_dense _ _ _ _ Hrun Hone) as (Hdense & Hrows & Hids).
  split_and!; [done|congruence| |].
  - intros i. rewrite <- Hrows. apply Hdense.
  - by destruct (from_texts_inv _ _ _ _ Hrun) as (a & docs & _ & _ & ->).
Qed.

Lemma from_texts_rows_and_ids_witness :
  row_count toy_store = 3%nat ∧ id_count toy_store = 3%nat.
Proof.
  destruct (from_texts_rows_and_ids ["one"; "two"; "three"] toy_embeddings
              None toy_store) as (Hrows & Hids & _).
  - vm_compute. reflexivity.
  - reflexivity.
  - split; [exact Hrows|exact Hids].
Defined.

(** X2. In a store that [from_texts] returned, the row of the [i]-th text
    has the id [str(i)], and the docstore has under that id the document
    made of the text and of [metadatas[i]] (the empty mapping when there are
    no metadatas); beyond the texts there is no id. *)
Theorem from_texts_round_trip (texts : list string) (embedding : Embeddings)
    (metadatas : option (list (gmap string string)))
    (this : NumpyVectorStore InMemoryDocstore) :
  from_texts texts embedding metadatas = Return this →
  (∀ (i : nat) text, texts !! i = Some text →
     ∃ m, metadata_at metadatas i = Return m
       ∧ index_to_docstore_id this !! Z.of_nat i = Some (pretty i)
       ∧ search (docstore this) (pretty i)
         = IsDocument {| page_content := text; metadata := m |})
  ∧ (∀ i : Z, ¬ (0 ≤ i < Z.of_nat (length texts)) →
       index_to_docstore_id this !! i = None).
Proof.
  intros Hrun.
  destruct (from_texts_inv _ _ _ _ Hrun) as (a & documents & _ & Hdocs & ->).
  pose proof (make_documents_lookup _ _ _ _ Hdocs) as [Hlen Hlook].
  simpl. split.
  - intros i text Hi. destruct (Hlook _ _ Hi) as [m Hdoc]. exists m.
    destruct (make_documents_metadata _ _ _ _ Hdocs i _ Hdoc) as [Hm _].
    assert (i < length texts)%nat by by eapply lookup_lt_Some.
    split_and!; [done| |].
    + rewrite range_ids_lookup, bool_decide_true by lia.
      by rewrite Nat2Z.id.
    + by rewrite (enumerated_docs_lookup _ _ _ Hdoc).
  - intros i Hi. rewrite range_ids_lookup, Hlen.
    by rewrite bool_decide_false.
Qed.

Lemma from_texts_round_trip_witness :
  index_to_docstore_id toy_store !! 1 = Some "1"%string
  ∧ search (docstore toy_store) "1" = IsDocument (doc_of "two").
Proof.
  destruct (from_texts_round_trip ["one"; "two"; "three"] toy_embeddings
              None toy_store) as [Hrows _].
  - vm_compute. reflexivity.
  - destruct (Hrows 1%nat "two"%string eq_refl) as (m & Hm & Hid & Hdoc).
    injection Hm as <-. split; [exact Hid|exact Hdoc].
Defined.

(** X3. [from_texts] returns a store exactly when the vectors that
    [embed_documents] gives have one width and [metadatas], if it is a list
    with entries, has one for each text; otherwise it raises numpy's shape
    error or the [IndexError] of [metadatas[i]], and never a [KeyError]. *)
Theorem from_texts_returns_iff (texts : list string) (embedding : Embeddings)
    (metadatas : option (list (gmap string string))) :
  (is_Return (from_texts texts embedding metadatas)
   ↔ (∃ d, Forall (λ v, length v = d) (embed_documents embedding texts))
     ∧ metadatas_cover metadatas (length texts))
  ∧ (∀ e, from_texts texts embedding metadatas = Raise e →
       e = Numpy_ValueError ∨ ∃ j, e = IndexError j).
Proof.
  assert (is_Return (make_documents metadatas 0 texts)
          ↔ metadatas_cover metadatas (length texts)) as Hmd.
  { rewrite make_documents_is_Return. simpl. split; [|by right].
    intros [->|?]; [|done]. unfold metadatas_cover.
    destruct metadatas as [[|m l]|]; simpl; [done|lia|done]. }
  rewrite <- np_array_is_Return, <- Hmd.
  destruct (from_texts texts embedding metadatas) as [this|e] eqn:Hrun.
  - split; [|done]. split; [|done]. intros _.
    destruct (from_texts_inv _ _ _ _ Hrun) as (a & docs & -> & -> & _).
    done.
  - unfold from_texts in Hrun.
    destruct (np.array _) as [a|e'] eqn:Harr.
    2:{ simpl in Hrun. injection Hrun as <-.
        apply np_array_raises in Harr as ->.
        split; [|intros e [= <-]; by left]. simpl. tauto. }
    rewrite outcome_bind_Return in Hrun.
    destruct (make_documents _ _ _) as [documents|e'] eqn:Hdocs.
    2:{ simpl in Hrun. injection Hrun as <-.
        apply make_documents_raises in Hdocs as [j ->].
        split; [|intros e [= <-]; right; by exists j]. simpl. tauto. }
    exfalso. rewrite outcome_bind_Return in Hrun.
    destruct (for_each _ _) as [entries|e'] eqn:Hentries; [done|].
    clear Hrun.
    assert (∀ (l : list (nat * Document)) (n : nat),
      Forall (λ p, (p.1 < n)%nat) l →
      is_Return (for_each (λ '(i, doc),
         _id ← dict_getitem
                  (py_dict ((λ i, (Z.of_nat i, pretty i)) <$> seq 0 n))
                  (Z.of_nat i);
         Return (_id, doc)) l)) as Hall.
    { intros l n. induction 1 as [|[i doc] l Hi _ IH]; simpl; [done|].
      unfold dict_getitem. rewrite range_ids_lookup.
      rewrite bool_decide_true by (simpl in Hi; lia). simpl.
      by destruct (for_each _ l). }
    specialize (Hall (imap (λ i doc, (i, doc)) documents) (length documents)).
    rewrite Hentries in Hall. simpl in Hall. apply Hall.
    apply Forall_forall. intros [i doc] Hin.
    apply list_elem_of_lookup in Hin as [p Hp].
    rewrite list_lookup_imap in Hp.
    destruct (documents !! p) eqn:Hdp; simpl in Hp; [|done].
    injection Hp as <- <-. simpl. by eapply lookup_lt_Some.
Qed.

(** ** Insertion: [add_texts] *)

Lemma metadata_at_list l i :
  l ≠ [] →
  metadata_at (Some l) i
  = match l !! i with
    | Some m => Return m
    | None => Raise (IndexError (Z.of_nat i))
    end.
Proof. by destruct l. Qed.

Lemma make_documents_short l i texts :
  (i ≤ length l)%nat → (length l < i + length texts)%nat → l ≠ [] →
  make_documents (Some l) i texts = Raise (IndexError (Z.of_nat (length l))).
Proof.
  revert i. induction texts as [|text rest IH]; intros i Hle Hlt Hne.
  { simpl in Hlt. lia. }
  cbn [make_documents]. rewrite metadata_at_list by done.
  destruct (l !! i) as [mi|] eqn:Hi.
  - apply lookup_lt_Some in Hi. rewrite outcome_bind_Return.
    rewrite (IH (S i)); [done|lia|simpl in Hlt; lia|done].
  - apply lookup_ge_None in Hi. simpl. do 3 f_equal. lia.
Qed.

Lemma vstack_under_matrix d rows vs stacked :
  (new_rows ← np.array vs; np.vstack (Arr2 d rows) new_rows) = Return stacked →
  ∃ new, stacked = Arr2 d (rows ++ new).
Proof.
  destruct (np.array vs) as [b|] eqn:Harr; simpl; [|done].
  unfold np.vstack. simpl. destruct (np.atleast_2d b) as [db rb].
  case_match; [|done]. intros [= <-]. by exists rb.
Qed.

Lemma InMemoryDocstore_keeps : DocstoreKeeps InMemoryDocstore.
Proof.
  intros f d texts d' _id [= <-] [= <-] Hnone. simpl.
  by rewrite (lookup_union_r _ _ _ Hnone).
Qed.

Section add_texts_more.
Context `{Docstore DS} (uuid4 : nat → string).
Implicit Types (w : world DS) (texts : iterable).

(** The keys [add_texts] writes in the id mapping are not below the
    number of ids there were. *)
Lemma new_rows_not_below w documents (i : Z) :
  i < Z.of_nat (id_count (self w)) →
  py_dict ((λ e, (e.1.1, e.1.2)) <$>
     full_info uuid4 (id_count (self w)) (uuid_calls w) documents) !! i = None.
Proof.
  intros Hi. apply eq_None_not_Some.
  rewrite py_dict_is_Some, <- list_fmap_compose. unfold compose. simpl.
  rewrite (full_info_rows uuid4 w documents), list_elem_of_fmap.
  setoid_rewrite elem_of_seq. intros (j & -> & Hj). lia.
Qed.
End add_texts_more.

(** X4. For texts in a list, on a matrix whose ids are those of its row
    indices (of positive width, or with a text to add), a returning
    [add_texts] leaves a store of the same kind: as many new rows as
    texts, as many returned ids, and again exactly the row indices with an
    id, so that rows and ids are as many. *)
Theorem add_texts_list_invariant `{Docstore DS} (uuid4 : nat → string)
    (items : list string) (metadatas : option (list (gmap string string)))
    (w w' : world DS) (ids : list string) (d : nat)
    (rows : list (list float32)) :
  index (self w) = Arr2 d rows →
  (0 < d ∨ 0 < length items)%nat →
  dense_ids (self w) →
  add_texts uuid4 (PyList items) metadatas w = (w', Return ids) →
  dense_ids (self w')
  ∧ row_count (self w') = (row_count (self w) + length items)%nat
  ∧ id_count (self w') = row_count (self w')
  ∧ length ids = length items.
Proof.
  intros Hindex Hpos Hdense Hrun.
  destruct (add_texts_list_keeps_dense _ _ _ _ _ _ _ _ Hindex Hpos Hdense Hrun)
    as (? & ? & ?).
  destruct (add_texts_list_Return _ _ _ _ _ _ _ _ Hindex Hpos Hrun)
    as (_ & _ & _ & _ & _ & _ & -> & _).
  split_and!; [done..|]. by rewrite length_fmap, length_seq.
Qed.

Lemma add_texts_list_invariant_witness :
  row_count (self (add_texts toy_uuid4 (PyList ["two"; "one"]) None
                     toy_world).1) = 5%nat
  ∧ id_count (self (add_texts toy_uuid4 (PyList ["two"; "one"]) None
                      toy_world).1) = 5%nat.
Proof.
  destruct (add_texts_list_invariant toy_uuid4 ["two"; "one"] None toy_world
              (add_texts toy_uuid4 (PyList ["two"; "one"]) None toy_world).1
              ["uuid-0"; "uuid-1"]%string 2 (f32s <$> [[1; 0]; [0; 1]; [1; 1]]))
    as (_ & Hrows & Hids & _).
  - reflexivity.
  - left. lia.
  - intros i. change (row_count (self toy_world)) with 3%nat.
    unfold toy_world, toy_store, py_dict. simpl.
    rewrite !lookup_insert_is_Some, lookup_empty. split.
    + intros [<-|[_ [<-|[_ [<-|[_ []]]]]]]; [lia..|done].
    + intros Hi. destruct (decide (2 = i)); [by left|right; split; [done|]].
      destruct (decide (1 = i)); [by left|right; split; [done|]].
      left. lia.
  - vm_compute. reflexivity.
  - rewrite Hids, Hrows. split; reflexivity.
Defined.

(** X5. [add_texts] only appends. Whatever the texts, the metadatas and
    the outcome, on a matrix the rows there were stay the first rows, in
    their order, the embedding function stays, and an id kept for a row
    index below the number of ids stays the id of that row index. *)
Theorem add_texts_append_only `{Docstore DS} (uuid4 : nat → string)
    (texts : iterable) (metadatas : option (list (gmap string string)))
    (w : world DS) (d : nat) (rows : list (list float32)) :
  index (self w) = Arr2 d rows →
  (∃ new, index (self (add_texts uuid4 texts metadatas w).1)
          = Arr2 d (rows ++ new))
  ∧ embedding_function (self (add_texts uuid4 texts metadatas w).1)
    = embedding_function (self w)
  ∧ ∀ i _id, index_to_docstore_id (self w) !! i = Some _id →
      i < Z.of_nat (id_count (self w)) →
      index_to_docstore_id (self (add_texts uuid4 texts metadatas w).1) !! i
      = Some _id.
Proof.
  intros Hindex.
  assert ((∃ new, index (self w) = Arr2 d (rows ++ new))
          ∧ embedding_function (self w) = embedding_function (self w)
          ∧ ∀ i _id, index_to_docstore_id (self w) !! i = Some _id →
              i < Z.of_nat (id_count (self w)) →
              index_to_docstore_id (self w) !! i = Some _id) as Hsame.
  { split_and!; [|done..]. exists []. by rewrite app_nil_r. }
  destruct add as [docstore_add|] eqn:Hadd.
  2:{ unfold add_texts. rewrite Hadd. exact Hsame. }
  rewrite (add_texts_unfold _ _ _ _ _ Hadd).
  destruct (make_documents _ _ _) as [documents|]; [|exact Hsame].
  destruct (_ ≫= _) as [stacked|] eqn:Hstack; [|exact Hsame].
  rewrite Hindex in Hstack.
  apply vstack_under_matrix in Hstack as [new ->]. simpl.
  destruct (docstore_add _ _) as [ds [msg|]]; simpl.
  - split_and!; [by exists new|done..].
  - split_and!; [by exists new|done|].
    intros i _id Hid Hi. rewrite lookup_union_r; [done|].
    by apply new_rows_not_below.
Qed.

Lemma add_texts_append_only_witness :
  ∃ new, index (self (add_texts toy_uuid4 (PyIterator ["two"]) None
                        toy_world).1)
         = Arr2 2 ((f32s <$> [[1; 0]; [0; 1]; [1; 1]]) ++ new).
Proof.
  destruct (add_texts_append_only toy_uuid4 (PyIterator ["two"]) None
              toy_world 2 (f32s <$> [[1; 0]; [0; 1]; [1; 1]])) as [Hrows _].
  - reflexivity.
  - exact Hrows.
Defined.

(** X6. For texts in a one-pass iterator with at least one text, whose
    embeddings have the width of the matrix, [add_texts] stacks a row per
    text and makes no id and draws no uuid: the rows are more than before,
    the ids as many as before; and when the docstore's [add] returns on the
    empty batch it is given, the call returns the empty list. *)
Theorem add_texts_iterator_no_ids `{Docstore DS} (uuid4 : nat → string)
    docstore_add (items : list string)
    (metadatas : option (list (gmap string string))) (w : world DS)
    (d : nat) (rows : list (list float32)) :
  add = Some docstore_add →
  index (self w) = Arr2 d rows →
  items ≠ [] →
  Forall (λ text, length (embedding_function (self w) text) = d) items →
  row_count (self (add_texts uuid4 (PyIterator items) metadatas w).1)
  = (row_count (self w) + length items)%nat
  ∧ id_count (self (add_texts uuid4 (PyIterator items) metadatas w).1)
    = id_count (self w)
  ∧ uuid_calls (add_texts uuid4 (PyIterator items) metadatas w).1
    = uuid_calls w
  ∧ ((docstore_add (docstore (self w)) ∅).2 = None →
     (add_texts uuid4 (PyIterator items) metadatas w).2 = Return []).
Proof.
  intros Hadd Hindex Hitems Hwidth.
  destruct (add_texts_iterator_rows_only uuid4 _ _ metadatas _ _ _
              Hadd Hindex Hitems Hwidth) as [Hindex' Hids'].
  unfold row_count, id_count. rewrite Hindex', Hids', Hindex. simpl.
  rewrite length_app, length_fmap. split_and!; [done..| |].
  - rewrite (add_texts_unfold _ _ _ _ _ Hadd). simpl. rewrite Hindex.
    rewrite (np_array_same_width d), outcome_bind_Return;
      [|by destruct items|by apply Forall_fmap].
    unfold np.vstack. simpl. rewrite Nat.eqb_refl. simpl.
    destruct (docstore_add _ _) as [ds [msg|]]; simpl; lia.
  - rewrite (add_texts_unfold _ _ _ _ _ Hadd). simpl. rewrite Hindex.
    rewrite (np_array_same_width d), outcome_bind_Return;
      [|by destruct items|by apply Forall_fmap].
    unfold np.vstack. simpl. rewrite Nat.eqb_refl. simpl.
    unfold py_dict. simpl.
    by destruct (docstore_add _ _) as [ds [msg|]].
Qed.

Lemma add_texts_iterator_no_ids_witness :
  row_count (self (add_texts toy_uuid4 (PyIterator ["two"; "one"]) None
                     toy_world).1) = 5%nat
  ∧ id_count (self (add_texts toy_uuid4 (PyIterator ["two"; "one"]) None
                      toy_world).1) = 3%nat.
Proof.
  destruct (add_texts_iterator_no_ids toy_uuid4
              (λ d texts, ({| _dict := texts ∪ _dict d |}, None))
              ["two"; "one"] None toy_world 2
              (f32s <$> [[1; 0]; [0; 1]; [1; 1]]))
    as (Hrows & Hids & _).
  - reflexivity.
  - reflexivity.
  - discriminate.
  - repeat constructor.
  - rewrite Hrows, Hids. split; vm_compute; reflexivity.
Defined.

(** X7. When the docstore can add and [metadatas] is a list with entries
    but fewer than the texts of the list given, [add_texts] raises
    [IndexError] at the first text without an entry and changes nothing:
    no row is stacked, no uuid drawn, nothing given to the docstore. *)
Theorem add_texts_short_metadatas `{Docstore DS} (uuid4 : nat → string)
    docstore_add (items : list string) (l : list (gmap string string))
    (w : world DS) :
  add = Some docstore_add →
  l ≠ [] →
  (length l < length items)%nat →
  add_texts uuid4 (PyList items) (Some l) w
  = (w, Raise (IndexError (Z.of_nat (length l)))).
Proof.
  intros Hadd Hne Hshort. rewrite (add_texts_unfold _ _ _ _ _ Hadd). simpl.
  by rewrite make_documents_short by (done || lia).
Qed.

Lemma add_texts_short_metadatas_witness :
  add_texts toy_uuid4 (PyList ["one"; "two"]) (Some [∅]) toy_world
  = (toy_world, Raise (IndexError 1)).
Proof.
  apply (add_texts_short_metadatas toy_uuid4
           (λ d texts, ({| _dict := texts ∪ _dict d |}, None))
           ["one"; "two"] [∅] toy_world).
  - reflexivity.
  - discriminate.
  - simpl. lia.
Defined.

(** X8. There is no rollback. For texts in a list, not empty, whose
    embeddings have the width of the matrix and which metadatas cover, when
    the docstore's [add] raises whatever it is given, [add_texts] raises
    the docstore's error after it has stacked the rows and drawn the uuids:
    it leaves a row per text more, and the ids there were. *)
Theorem add_texts_docstore_raises `{Docstore DS} (uuid4 : nat → string)
    docstore_add (msg : string) (items : list string)
    (metadatas : option (list (gmap string string))) (w : world DS)
    (d : nat) (rows : list (list float32)) :
  add = Some docstore_add →
  (∀ ds texts, (docstore_add ds texts).2 = Some msg) →
  index (self w) = Arr2 d rows →
  items ≠ [] →
  Forall (λ text, length (embedding_function (self w) text) = d) items →
  metadatas_cover metadatas (length items) →
  (add_texts uuid4 (PyList items) metadatas w).2 = Raise (DocstoreError msg)
  ∧ index (self (add_texts uuid4 (PyList items) metadatas w).1)
    = Arr2 d (rows ++ (embedding32 (self w) <$> items))
  ∧ index_to_docstore_id (self (add_texts uuid4 (PyList items) metadatas w).1)
    = index_to_docstore_id (self w)
  ∧ uuid_calls (add_texts uuid4 (PyList items) metadatas w).1
    = (uuid_calls w + length items)%nat.
Proof.
  intros Hadd Hraises Hindex Hitems Hwidth Hcover.
  rewrite (add_texts_unfold _ _ _ _ _ Hadd). simpl.
  destruct (make_documents metadatas 0 items) as [documents|] eqn:Hdocs.
  2:{ exfalso. assert (is_Return (make_documents metadatas 0 items)) as Hret
        by (apply make_documents_is_Return; by right).
      by rewrite Hdocs in Hret. }
  apply make_documents_lookup in Hdocs as [Hlen _].
  rewrite Hindex, (np_array_same_width d), outcome_bind_Return;
    [|by destruct items|by apply Forall_fmap].
  unfold np.vstack. simpl. rewrite Nat.eqb_refl. simpl.
  rewrite as_float32_embeddings.
  match goal with |- context [docstore_add ?ds ?texts] =>
    pose proof (Hraises ds texts) as Hr;
    destruct (docstore_add ds texts) as [ds' r] end.
  simpl in Hr. subst r. simpl. by rewrite Hlen.
Qed.

Lemma add_texts_docstore_raises_witness :
  (add_texts toy_uuid4 (PyList ["two"]) None failing_world).2
  = Raise (DocstoreError "docstore is full")
  ∧ row_count (self (add_texts toy_uuid4 (PyList ["two"]) None
                       failing_world).1) = 4%nat
  ∧ id_count (self (add_texts toy_uuid4 (PyList ["two"]) None
                      failing_world).1) = 3%nat.
Proof.
  destruct (add_texts_docstore_raises toy_uuid4
              (λ (d : FailingDocstore) (texts : gmap string Document),
                 (d, Some "docstore is full"%string))
              "docstore is full" ["two"] None failing_world 2
              (f32s <$> [[1; 0]; [0; 1]; [1; 1]]))
    as (Hraise & Hrows & Hids & _).
  - reflexivity.
  - reflexivity.
  - reflexivity.
  - discriminate.
  - repeat constructor.
  - exact I.
  - split; [exact Hraise|]. unfold row_count, id_count.
    rewrite Hrows, Hids. split; vm_compute; reflexivity.
Defined.

(** X9. With no text to add (an empty list, an exhausted iterator), on an
    index of width other than zero, [add_texts] raises numpy's shape error
    and changes nothing: the empty batch is an array of shape (0,), which
    does not stack under a matrix. *)
Theorem add_texts_no_texts `{Docstore DS} (uuid4 : nat → string)
    docstore_add (texts : iterable)
    (metadatas : option (list (gmap string string))) (w : world DS) :
  add = Some docstore_add →
  (iterate texts).1 = [] →
  np_width (index (self w)) ≠ 0%nat →
  add_texts uuid4 texts metadatas w = (w, Raise Numpy_ValueError).
Proof.
  intros Hadd Hempty Hwidth. rewrite (add_texts_unfold _ _ _ _ _ Hadd).
  assert ((iterate (iterate texts).2).1 = []) as ->.
  { destruct texts; simpl in *; by subst. }
  rewrite Hempty. simpl. unfold np.vstack, np_width in *.
  destruct (np.atleast_2d (index (self w))) as [da ra]. simpl in *.
  by destruct (Nat.eqb_spec da 0).
Qed.

Lemma add_texts_no_texts_witness :
  add_texts toy_uuid4 (PyList []) None toy_world
  = (toy_world, Raise Numpy_ValueError).
Proof.
  apply (add_texts_no_texts toy_uuid4
           (λ d texts, ({| _dict := texts ∪ _dict d |}, None))
           (PyList []) None toy_world).
  - reflexivity.
  - reflexivity.
  - vm_compute. lia.
Defined.

(** X20. What a returning [add_texts] appends for texts in a list. On a
    matrix of [r] rows with as many ids (of positive width, or with a text
    to add), with [uuid4] never repeating itself and a docstore that stores
    what it is given: the matrix is the old rows followed by the [float32]
    vectors of the texts in input order; the returned ids are the [n] next
    draws of [uuid4] in order, pairwise distinct and different from every
    value drawn before; and for each [i] the [i]-th id is the id of row
    [r + i] and the docstore has under it the document made of the [i]-th
    text and of [metadatas[i]] (the empty mapping without metadatas). *)
Theorem add_texts_appends_in_order `{Docstore DS} `{!DocstoreStores DS}
    (uuid4 : nat → string) (items : list string)
    (metadatas : option (list (gmap string string))) (w w' : world DS)
    (ids : list string) (d : nat) (rows : list (list float32)) :
  (∀ i j, uuid4 i = uuid4 j → i = j) →
  index (self w) = Arr2 d rows →
  id_count (self w) = length rows →
  (0 < d ∨ 0 < length items)%nat →
  add_texts uuid4 (PyList items) metadatas w = (w', Return ids) →
  index (self w') = Arr2 d (rows ++ (embedding32 (self w) <$> items))
  ∧ ids = uuid4 <$> seq (uuid_calls w) (length items)
  ∧ uuid_calls w' = (uuid_calls w + length items)%nat
  ∧ NoDup ids
  ∧ (∀ j, (j < uuid_calls w)%nat → uuid4 j ∉ ids)
  ∧ ∀ i text, items !! i = Some text →
      ∃ _id m,
        metadata_at metadatas i = Return m
        ∧ ids !! i = Some _id
        ∧ index_to_docstore_id (self w') !! Z.of_nat (length rows + i)
          = Some _id
        ∧ search (docstore (self w')) _id
          = IsDocument {| page_content := text; metadata := m |}.
Proof.
  intros Hinj Hindex Hcount Hpos Hrun.
  assert (Inj (=) (=) uuid4) as Hinj' by exact Hinj.
  destruct (add_texts_list_Return _ _ _ _ _ _ _ _ Hindex Hpos Hrun)
    as (f & documents & ds & Hadd & Hdocs & Hds & -> & Hindex' & <- & Hids
        & Hcalls).
  pose proof (make_documents_metadata _ _ _ _ Hdocs) as Hmeta.
  apply make_documents_lookup in Hdocs as [Hlen Hdocs].
  split_and!; [done..| | |].
  { apply NoDup_fmap_2; [done|apply NoDup_seq]. }
  { intros j Hj Hin. apply list_elem_of_fmap in Hin as (j' & Heq & Hj').
    apply Hinj in Heq as ->. apply elem_of_seq in Hj'. lia. }
  intros i text Hi. destruct (Hdocs _ _ Hi) as [m Hdoc].
  exists (uuid4 (uuid_calls w + i)%nat), m.
  assert (i < length items)%nat as Hlt by by eapply lookup_lt_Some.
  split_and!.
  - by destruct (Hmeta _ _ Hdoc) as [Hm _].
  - by rewrite list_lookup_fmap, lookup_seq_lt.
  - rewrite Hids. apply lookup_union_Some_l. rewrite <- Hcount.
    eapply (py_dict_lookup _ i).
    + rewrite <- list_fmap_compose. unfold compose. simpl.
      rewrite (full_info_rows uuid4 w documents).
      apply NoDup_fmap_2; [apply _|apply NoDup_seq].
    + rewrite list_lookup_fmap. unfold full_info.
      rewrite list_lookup_imap, Hdoc. done.
  - eapply add_search; [exact Hadd|exact Hds|].
    eapply (py_dict_lookup _ i).
    + rewrite <- list_fmap_compose. unfold compose. simpl.
      rewrite (full_info_ids uuid4 w documents).
      apply NoDup_fmap_2; [done|apply NoDup_seq].
    + rewrite list_lookup_fmap. unfold full_info.
      rewrite list_lookup_imap, Hdoc. done.
Qed.

Lemma add_texts_appends_in_order_witness :
  index (self (add_texts toy_uuid4 (PyList ["two"]) (Some [{["k" := "v"]}])
                 toy_world).1)
  = Arr2 2 ((f32s <$> [[1; 0]; [0; 1]; [1; 1]]) ++ [f32s [0; 1]])
  ∧ index_to_docstore_id
      (self (add_texts toy_uuid4 (PyList ["two"]) (Some [{["k" := "v"]}])
               toy_world).1) !! 3
    = Some "uuid-0"%string
  ∧ search
      (docstore
         (self (add_texts toy_uuid4 (PyList ["two"]) (Some [{["k" := "v"]}])
                  toy_world).1)) "uuid-0"
    = IsDocument {| page_content := "two"; metadata := {["k" := "v"]} |}.
Proof.
  destruct (add_texts_appends_in_order (DocstoreStores0 := InMemoryDocstore_stores)
              toy_uuid4 ["two"] (Some [{["k" := "v"]}]) toy_world
              (add_texts toy_uuid4 (PyList ["two"]) (Some [{["k" := "v"]}])
                 toy_world).1
              ["uuid-0"%string] 2 (f32s <$> [[1; 0]; [0; 1]; [1; 1]]))
    as (Hindex & _ & _ & _ & _ & Hrows).
  - exact toy_uuid4_inj.
  - reflexivity.
  - vm_compute. reflexivity.
  - left. lia.
  - vm_compute. reflexivity.
  - destruct (Hrows 0%nat "two"%string eq_refl)
      as (_id & m & Hm & Hid & Hrow & Hdoc).
    injection Hid as <-. injection Hm as <-.
    split; [exact Hindex|]. split; [exact Hrow|exact Hdoc].
Defined.

(** X10. A returning [add_texts] keeps every row resolving. For texts in
    a list, on a matrix whose ids are those of its row indices and whose
    rows all resolve to documents, with a docstore that stores what it is
    given and keeps the rest, and a [uuid4] that never repeats itself nor
    gives an id already in use: after the call every row, old or new,
    has an id under which the docstore has a document. *)
Theorem add_texts_keeps_rows_resolving `{Docstore DS} `{!DocstoreStores DS}
    `{!DocstoreKeeps DS} (uuid4 : nat → string) (items : list string)
    (metadatas : option (list (gmap string string))) (w w' : world DS)
    (ids : list string) (d : nat) (rows : list (list float32)) :
  (∀ i j, uuid4 i = uuid4 j → i = j) →
  (∀ j i _id, (uuid_calls w ≤ j)%nat →
     index_to_docstore_id (self w) !! i = Some _id → uuid4 j ≠ _id) →
  index (self w) = Arr2 d rows →
  (0 < d ∨ 0 < length items)%nat →
  dense_ids (self w) →
  rows_resolve (self w) →
  add_texts uuid4 (PyList items) metadatas w = (w', Return ids) →
  rows_resolve (self w').
Proof.
  intros Hinj Hfresh Hindex Hpos Hdense Hresolve Hrun.
  assert (Inj (=) (=) uuid4) as Hinj' by exact Hinj.
  destruct (add_texts_list_Return _ _ _ _ _ _ _ _ Hindex Hpos Hrun)
    as (f & documents & ds & Hadd & Hdocs & Hds & _ & Hindex' & Hds' & Hids
        & _).
  apply make_documents_lookup in Hdocs as [Hlen _].
  pose proof (dense_ids_count _ Hdense) as Hcount.
  assert (row_count (self w) = length rows) as Hr
    by (unfold row_count; by rewrite Hindex).
  intros i Hi. unfold row_count in Hi. rewrite Hindex' in Hi. simpl in Hi.
  rewrite length_app, length_fmap in Hi.
  unfold row_document. rewrite Hids, Hds'.
  destruct (decide (i < length rows)%nat) as [Hold|Hnew].
  - destruct (Hresolve i) as (doc & _id & Hid & Hsearch); [lia|].
    exists doc, _id. split.
    + rewrite lookup_union_r; [done|]. apply new_rows_not_below. lia.
    + rewrite <- Hsearch. eapply add_keeps; [exact Hadd|exact Hds|].
      apply eq_None_not_Some.
      rewrite py_dict_is_Some, <- list_fmap_compose. unfold compose. simpl.
      rewrite (full_info_ids uuid4 w documents), list_elem_of_fmap.
      setoid_rewrite elem_of_seq. intros (j & -> & Hj).
      exact (Hfresh j _ _ ltac:(lia) Hid eq_refl).
  - destruct (lookup_lt_is_Some_2 documents (i - length rows)) as [doc Hdoc];
      [lia|].
    exists doc, (uuid4 (uuid_calls w + (i - length rows))%nat). split.
    + apply lookup_union_Some_l.
      eapply (py_dict_lookup _ (i - length rows)).
      * rewrite <- list_fmap_compose. unfold compose. simpl.
        rewrite (full_info_rows uuid4 w documents).
        apply NoDup_fmap_2; [apply _|apply NoDup_seq].
      * rewrite list_lookup_fmap. unfold full_info.
        rewrite list_lookup_imap, Hdoc. simpl. do 3 f_equal. lia.
    + eapply add_search; [exact Hadd|exact Hds|].
      eapply (py_dict_lookup _ (i - length rows)).
      * rewrite <- list_fmap_compose. unfold compose. simpl.
        rewrite (full_info_ids uuid4 w documents).
        apply NoDup_fmap_2; [done|apply NoDup_seq].
      * rewrite list_lookup_fmap. unfold full_info.
        rewrite list_lookup_imap, Hdoc. done.
Qed.

Lemma toy_store_dense : dense_ids toy_store.
Proof.
  intros i. change (row_count toy_store) with 3%nat.
  unfold toy_store, py_dict. simpl.
  rewrite !lookup_insert_is_Some, lookup_empty. split.
  - intros [<-|[_ [<-|[_ [<-|[_ []]]]]]]; [lia..|done].
  - intros Hi. destruct (decide (2 = i)); [by left|right; split; [done|]].
    destruct (decide (1 = i)); [by left|right; split; [done|]].
    left. lia.
Qed.

Lemma toy_store_resolves : rows_resolve toy_store.
Proof.
  intros i Hi. unfold row_count in Hi. simpl in Hi.
  destruct i as [|[|[|i]]]; [| | |lia].
  - exists (doc_of "one"), "0"%string. split; vm_compute; reflexivity.
  - exists (doc_of "two"), "1"%string. split; vm_compute; reflexivity.
  - exists (doc_of "three"), "2"%string. split; vm_compute; reflexivity.
Qed.

Lemma toy_ids_fresh j i _id :
  index_to_docstore_id toy_store !! i = Some _id → toy_uuid4 j ≠ _id.
Proof.
  unfold toy_store, py_dict. simpl.
  rewrite !lookup_insert_Some, lookup_empty. unfold toy_uuid4.
  intros [[_ <-]|[_ [[_ <-]|[_ [[_ <-]|[_ ?]]]]]]; [..|done]; simpl;
    discriminate.
Qed.

Lemma add_texts_keeps_rows_resolving_witness :
  rows_resolve (self (add_texts toy_uuid4 (PyList ["two"]) None toy_world).1).
Proof.
  apply (add_texts_keeps_rows_resolving
           (DocstoreStores0 := InMemoryDocstore_stores)
           (DocstoreKeeps0 := InMemoryDocstore_keeps)
           toy_uuid4 ["two"] None toy_world _ ["uuid-0"%string] 2
           (f32s <$> [[1; 0]; [0; 1]; [1; 1]])).
  - exact toy_uuid4_inj.
  - intros j i _id _. apply toy_ids_fresh.
  - reflexivity.
  - left. lia.
  - exact toy_store_dense.
  - exact toy_store_resolves.
  - vm_compute. reflexivity.
Defined.

(** ** Search: [similarity_search] *)

Section similarity_more.
Context `{Docstore DS} `{np.ArgSort}.
Implicit Types (this : NumpyVectorStore DS) (indices : list Z).

(** Whatever the index, the indices the loop goes through are a slice of
    the argsort of some distances, or that argsort padded with -1. *)
Lemma similarity_indices_inv this query k indices :
  similarity_indices this query k = Return indices →
  ∃ D, indices
       = if Z.of_nat (length (Z.of_nat <$> np.argsort D)) >=? k
         then py_slice_to (Z.of_nat <$> np.argsort D) k
         else np.pad_right (Z.of_nat <$> np.argsort D)
                (k - Z.of_nat (length (Z.of_nat <$> np.argsort D))) (-1).
Proof.
  unfold similarity_indices.
  destruct (np.subtract _ _) as [diff|]; simpl; [|done].
  destruct (np.sum_axis1 _) as [D|]; simpl; [|done].
  intros [= <-]. by exists D.
Qed.

(** Lines 93-94 for a negative [k]: the slice [I[:k]] leaves out the last
    [-k] entries of the argsort. *)
Lemma similarity_indices_negative this query k d rows :
  index this = Arr2 d rows →
  Forall (λ r, length r = d) rows →
  length (embedding_function this query) = d →
  k < 0 →
  similarity_indices this query k
  = Return (Z.of_nat <$>
      take (length (np.argsort (sqdist (embedding32 this query)
                                  <$> rows)) - Z.to_nat (- k))
        (np.argsort (sqdist (embedding32 this query) <$> rows))).
Proof.
  intros Hindex Hwf Hq Hk. unfold similarity_indices.
  rewrite <- length_embedding32 in Hq. fold (embedding32 this query).
  rewrite Hindex, (np_subtract_matrix _ _ _ Hwf Hq), outcome_bind_Return.
  rewrite np_sum_square_sqdist, outcome_bind_Return.
  set (I := np.argsort _). rewrite length_fmap. f_equal.
  destruct (Z.geb_spec (Z.of_nat (length I)) k) as [_|Hlt]; [|lia].
  unfold py_slice_to. rewrite bool_decide_false by lia.
  rewrite length_fmap, <- fmap_take. do 2 f_equal. lia.
Qed.

(** The loop up to the first row index without an id. *)
Lemma lookup_documents_KeyError this pre i post :
  (∀ j, j ∈ pre → j = -1 ∨ ∃ doc, row_document this j doc) →
  i ≠ -1 →
  index_to_docstore_id this !! i = None →
  lookup_documents this (pre ++ i :: post) = Raise (KeyError i).
Proof.
  intros Hpre Hpad Hnone. induction pre as [|j pre IH]; simpl.
  - rewrite bool_decide_false by done. unfold dict_getitem.
    by rewrite Hnone.
  - rewrite IH by (intros j' Hj'; apply Hpre; by right).
    case_bool_decide; [done|].
    destruct (Hpre j) as [->|(doc & _id & Hid & Hsearch)]; [by left|done|].
    unfold dict_getitem. rewrite Hid. simpl. by rewrite Hsearch.
Qed.
End similarity_more.

(** X11. Whatever the store, for [k ≥ 0] a returning [similarity_search]
    returns at most [k] documents, and leaves the store as it was. *)
Theorem similarity_search_at_most_k `{Docstore DS} `{np.ArgSort}
    (w w' : world DS) (query : string) (k : Z) (docs : list Document) :
  0 ≤ k →
  similarity_search query k w = (w', Return docs) →
  Z.of_nat (length docs) ≤ k ∧ w' = w.
Proof.
  intros Hk. rewrite similarity_search_unfold. intros [= <- Hrun].
  split; [|done].
  destruct (similarity_indices (self w) query k) as [indices|] eqn:Hind;
    [|done].
  rewrite outcome_bind_Return in Hrun.
  apply lookup_documents_inv, Forall2_length in Hrun. rewrite <- Hrun.
  apply similarity_indices_inv in Hind as [D ->].
  rewrite length_fmap.
  destruct (Z.geb_spec (Z.of_nat (length (np.argsort D))) k) as [Hge|Hlt].
  - unfold py_slice_to. rewrite bool_decide_true by done.
    pose proof (length_filter (λ i, i ≠ -1)
                  (take (Z.to_nat k) (Z.of_nat <$> np.argsort D))) as Hf.
    rewrite length_take in Hf. lia.
  - unfold np.pad_right. rewrite filter_not_pad, length_fmap. lia.
Qed.

Lemma similarity_search_at_most_k_witness :
  Z.of_nat (length [doc_of "one"; doc_of "three"]) ≤ 2.
Proof.
  apply (similarity_search_at_most_k (H0 := stable_argsort) toy_world
           toy_world "one" 2 [doc_of "one"; doc_of "three"]).
  - lia.
  - vm_compute. reflexivity.
Defined.

(** X12. A negative [k] is not refused. On a matrix of [n] rows that all
    resolve, with a query of the matrix width, [similarity_search] with
    [k < 0] returns the documents of the first [n + k] entries of
    [np.argsort] of the distances line 92 computes, in the order of the
    sort (of no row, when there are not more than [-k]): the slice [I[:k]]
    of line 94 leaves out the last [-k] of the sort. *)
Theorem similarity_search_negative_k `{Docstore DS} `{np.ArgSortContract}
    (w : world DS) (query : string) (k : Z) (d : nat)
    (rows : list (list float32)) :
  index (self w) = Arr2 d rows →
  Forall (λ r, length r = d) rows →
  length (embedding_function (self w) query) = d →
  rows_resolve (self w) →
  k < 0 →
  ∃ docs,
    similarity_search query k w = (w, Return docs)
    ∧ Forall2 (λ i doc, row_document (self w) (Z.of_nat i) doc)
        (take (length rows - Z.to_nat (- k))
           (np.argsort (sqdist (embedding32 (self w) query) <$> rows)))
        docs
    ∧ length docs = (length rows - Z.to_nat (- k))%nat.
Proof.
  intros Hindex Hwf Hq Hresolve Hk.
  set (D := sqdist (embedding32 (self w) query) <$> rows).
  assert (length (np.argsort D) = length rows) as HlenI
    by (unfold D; by rewrite argsort_length, length_fmap).
  set (sel := take (length rows - Z.to_nat (- k)) (np.argsort D)).
  destruct (lookup_documents_Return (self w) (Z.of_nat <$> sel))
    as (docs & Hdocs & Hrel).
  { intros i Hi _. apply list_elem_of_fmap in Hi as (j & -> & Hj).
    apply Hresolve. unfold row_count. rewrite Hindex. simpl.
    apply subseteq_take, argsort_elem_of in Hj.
    unfold D in Hj. by rewrite length_fmap in Hj. }
  pose proof (filter_not_pad sel 0) as Hfilter. simpl in Hfilter.
  rewrite app_nil_r in Hfilter. rewrite Hfilter, Forall2_fmap_l in Hrel.
  exists docs. split_and!.
  - rewrite similarity_search_unfold.
    rewrite (similarity_indices_negative _ _ _ _ _ Hindex Hwf Hq Hk).
    rewrite outcome_bind_Return. fold D. rewrite HlenI. fold sel.
    by rewrite Hdocs.
  - exact Hrel.
  - rewrite <- (Forall2_length _ _ _ Hrel). unfold sel.
    rewrite length_take, HlenI. lia.
Qed.

Lemma similarity_search_negative_k_witness :
  ∃ docs,
    similarity_search (np_argsort := stable_argsort) "one" (-1) toy_world
    = (toy_world, Return docs)
    ∧ length docs = 2%nat.
Proof.
  destruct (similarity_search_negative_k (H0 := stable_argsort)
              (H1 := stable_argsort_contract) toy_world "one" (-1) 2
              (f32s <$> [[1; 0]; [0; 1]; [1; 1]]))
    as (docs & Hrun & _ & Hlen).
  - reflexivity.
  - repeat constructor.
  - reflexivity.
  - exact toy_store_resolves.
  - lia.
  - exists docs. split; [exact Hrun|exact Hlen].
Defined.

(** X13. A row without an id is a [KeyError]. When the loop reaches a row
    index that has no id in [index_to_docstore_id], the rows before it
    resolving to documents, [similarity_search] raises [KeyError] for that
    row index and returns no document, not even those already found. *)
Theorem similarity_search_missing_id `{Docstore DS} `{np.ArgSort}
    (w : world DS) (query : string) (k : Z) (pre post : list Z) (i : Z) :
  similarity_indices (self w) query k = Return (pre ++ i :: post) →
  (∀ j, j ∈ pre → j = -1 ∨ ∃ doc, row_document (self w) j doc) →
  i ≠ -1 →
  index_to_docstore_id (self w) !! i = None →
  similarity_search query k w = (w, Raise (KeyError i)).
Proof.
  intros Hind Hpre Hpad Hnone.
  rewrite similarity_search_unfold, Hind, outcome_bind_Return.
  by rewrite lookup_documents_KeyError.
Qed.

Lemma similarity_search_missing_id_witness :
  similarity_search (np_argsort := stable_argsort) "one" 2 unmapped_world
  = (unmapped_world, Raise (KeyError 1)).
Proof.
  apply (similarity_search_missing_id (H0 := stable_argsort) unmapped_world
           "one" 2 [0] [] 1).
  - vm_compute. reflexivity.
  - intros j Hj. apply list_elem_of_singleton in Hj as ->. right.
    exists (doc_of "one"), "0"%string. split; vm_compute; reflexivity.
  - lia.
  - vm_compute. reflexivity.
Defined.

(** X14. A query of another width is refused by numpy. On a matrix of
    width [d], a query embedded to [e] numbers with [e ≠ d], neither of the
    two being 1, makes [similarity_search] raise numpy's shape error, the
    store unchanged. *)
Theorem similarity_search_width_mismatch `{Docstore DS} `{np.ArgSort}
    (w : world DS) (query : string) (k : Z) (d : nat)
    (rows : list (list float32)) :
  index (self w) = Arr2 d rows →
  length (embedding_function (self w) query) ≠ d →
  length (embedding_function (self w) query) ≠ 1%nat →
  d ≠ 1%nat →
  similarity_search query k w = (w, Raise Numpy_ValueError).
Proof.
  intros Hindex Hne He Hd. rewrite similarity_search_unfold.
  unfold similarity_indices, np.subtract, np.broadcast_dim. rewrite Hindex.
  unfold np.as_float32. rewrite length_fmap.
  destruct (Nat.eqb_spec d (length (embedding_function (self w) query)));
    [congruence|].
  destruct (Nat.eqb_spec (length (embedding_function (self w) query)) 1);
    [done|].
  by destruct (Nat.eqb_spec d 1).
Qed.

Lemma similarity_search_width_mismatch_witness :
  similarity_search (np_argsort := stable_argsort) "wide" 1 toy_world
  = (toy_world, Raise Numpy_ValueError).
Proof.
  apply (similarity_search_width_mismatch (H0 := stable_argsort) toy_world
           "wide" 1 2 (f32s <$> [[1; 0]; [0; 1]; [1; 1]])).
  - reflexivity.
  - vm_compute. lia.
  - vm_compute. lia.
  - lia.
Defined.

(** X15. A query of one number is not refused: numpy broadcasts it. On a
    matrix of width [d ≠ 1], when the query is embedded to the single
    number [c], the distances of line 92 are, for each row, the sum of the
    squares of its components less [c], in [float32], and the loop goes
    through the first [k] rows by these distances. *)
Theorem similarity_search_scalar_query `{Docstore DS} `{np.ArgSort}
    (this : NumpyVectorStore DS) (query : string) (k : Z) (c : float64)
    (d : nat)
    (rows : list (list float32)) :
  index this = Arr2 d rows →
  Forall (λ r, length r = d) rows →
  d ≠ 1%nat →
  embedding_function this query = [c] →
  0 ≤ k →
  ∃ pad,
    similarity_indices this query k
    = Return
        ((Z.of_nat <$> take (Z.to_nat k)
            (np.argsort
               ((λ r, np.sum_row
                        ((λ x, f32.mul (f32.sub x (f32.of_float64 c))
                                       (f32.sub x (f32.of_float64 c))) <$> r))
                <$> rows)))
         ++ replicate pad (-1)).
Proof.
  intros Hindex Hwf Hd Hq Hk. unfold similarity_indices.
  rewrite Hindex, Hq. unfold np.subtract, np.broadcast_dim.
  cbn [np.as_float32 fmap list_fmap length].
  destruct (Nat.eqb_spec d 1) as [|_]; [done|].
  change (1 =? 1)%nat with true. cbv iota.
  rewrite outcome_bind_Return. unfold np.square, np.sum_axis1.
  rewrite outcome_bind_Return.
  assert ((np.sum_row <$>
             ((λ r : list float32, (λ x, f32.mul x x) <$> r) <$>
                ((λ r, np.sub_broadcast r [f32.of_float64 c]) <$> rows)))
          = (λ r, np.sum_row
                    ((λ x, f32.mul (f32.sub x (f32.of_float64 c))
                                   (f32.sub x (f32.of_float64 c))) <$> r))
            <$> rows)
    as ->.
  { rewrite <- !list_fmap_compose. apply Forall_fmap_ext.
    eapply Forall_impl; [exact Hwf|]. intros r Hr. cbn [compose].
    unfold np.sub_broadcast. cbn [length hd].
    destruct (Nat.eqb_spec (length r) 1) as [|_]; [congruence|].
    destruct (Nat.eqb_spec 1 1) as [_|]; [|done].
    by rewrite <- list_fmap_compose. }
  set (I := np.argsort _). rewrite length_fmap.
  exists (Z.to_nat (k - Z.of_nat (length I))). f_equal.
  destruct (Z.geb_spec (Z.of_nat (length I)) k) as [Hge|Hlt].
  - unfold py_slice_to. rewrite bool_decide_true by done.
    replace (Z.to_nat (k - Z.of_nat (length I))) with 0%nat by lia.
    simpl. by rewrite app_nil_r, fmap_take.
  - unfold np.pad_right. by rewrite take_ge by lia.
Qed.

Lemma similarity_search_scalar_query_witness :
  ∃ pad,
    similarity_indices (np_argsort := stable_argsort)
      (self scalar_query_world) "one" 2
    = Return ((Z.of_nat <$> [2; 0]%nat) ++ replicate pad (-1)).
Proof.
  destruct (similarity_search_scalar_query (H0 := stable_argsort)
              (self scalar_query_world) "one" 2 (f64.of_Z 1) 2
              (f32s <$> [[1; 0]; [0; 1]; [1; 1]])) as [pad Hrun].
  - reflexivity.
  - repeat constructor.
  - lia.
  - reflexivity.
  - lia.
  - exists pad. exact Hrun.
Defined.

(** X16. On an index of one dimension (as [np.array([])], which is what
    [from_texts] stores for no texts), [similarity_search] never returns:
    it raises numpy's shape error when the sizes of the index and of the
    query differ and neither is 1, and numpy's axis error otherwise, since
    the difference has no axis 1 to sum over. The store is unchanged. *)
Theorem similarity_search_flat_index `{Docstore DS} `{np.ArgSort}
    (w : world DS) (query : string) (k : Z) (v : list float32) :
  index (self w) = Arr1 v →
  similarity_search query k w
  = (w, Raise (if bool_decide
                    (length v = length (embedding_function (self w) query)
                     ∨ length (embedding_function (self w) query) = 1%nat
                     ∨ length v = 1%nat)
               then Numpy_AxisError else Numpy_ValueError)).
Proof.
  intros Hindex. rewrite similarity_search_unfold.
  unfold similarity_indices, np.subtract, np.broadcast_dim. rewrite Hindex.
  unfold np.as_float32. rewrite length_fmap.
  set (e := length (embedding_function (self w) query)).
  destruct (Nat.eqb_spec (length v) e);
    [by rewrite bool_decide_true by tauto|].
  destruct (Nat.eqb_spec e 1); [by rewrite bool_decide_true by tauto|].
  destruct (Nat.eqb_spec (length v) 1);
    [by rewrite bool_decide_true by tauto|].
  by rewrite bool_decide_false by tauto.
Qed.

Lemma similarity_search_flat_index_witness :
  similarity_search (np_argsort := stable_argsort) "one" 4 empty_world
  = (empty_world, Raise Numpy_ValueError).
Proof.
  apply (similarity_search_flat_index (H0 := stable_argsort) empty_world
           "one" 4 []).
  reflexivity.
Defined.

(** X17. On a matrix with no rows (shape (0, d)) and a query of width
    [d], [similarity_search] returns the empty list for every [k],
    positive, zero or negative: what line 94 pads with is passed over by
    the loop. *)
Theorem similarity_search_no_rows `{Docstore DS} `{np.ArgSortContract}
    (w : world DS) (query : string) (k : Z) (d : nat) :
  index (self w) = Arr2 d [] →
  length (embedding_function (self w) query) = d →
  similarity_search query k w = (w, Return []).
Proof.
  intros Hindex Hq. rewrite similarity_search_unfold.
  assert (np.argsort (sqdist (embedding32 (self w) query) <$> []) = [])
    as Hnil by (apply length_zero_iff_nil; by rewrite argsort_length).
  destruct (decide (0 ≤ k)) as [Hk|Hk].
  - rewrite (similarity_indices_matrix _ _ _ _ _ Hindex (Forall_nil_2 _) Hq)
      by done.
    rewrite outcome_bind_Return, lookup_documents_pad, Hnil.
    by rewrite take_nil.
  - rewrite (similarity_indices_negative _ _ _ _ _ Hindex (Forall_nil_2 _) Hq)
      by lia.
    rewrite outcome_bind_Return, Hnil. by rewrite take_nil.
Qed.

Lemma similarity_search_no_rows_witness :
  similarity_search (np_argsort := stable_argsort) "one" 3 empty_matrix_world
  = (empty_matrix_world, Return []).
Proof.
  apply (similarity_search_no_rows (H0 := stable_argsort)
           (H1 := stable_argsort_contract) empty_matrix_world "one" 3 2).
  - reflexivity.
  - reflexivity.
Defined.

(** ** Construction, then search *)

Lemma row_document_functional `{Docstore DS} (this : NumpyVectorStore DS)
    i doc doc' :
  row_document this i doc → row_document this i doc' → doc = doc'.
Proof. intros (? & ? & ?) (? & ? & ?). congruence. Qed.

(** The matrix of a store built from texts, at least one, whose embeddings
    have one width. *)
Lemma from_texts_matrix texts embedding metadatas this d :
  from_texts texts embedding metadatas = Return this →
  embed_documents embedding texts ≠ [] →
  Forall (λ v, length v = d) (embed_documents embedding texts) →
  index this = Arr2 d (np.as_float32 <$> embed_documents embedding texts)
  ∧ embedding_function this = embed_query embedding.
Proof.
  intros Hrun Hne Hwidth.
  destruct (from_texts_inv _ _ _ _ Hrun) as (a & docs & Harr & _ & ->).
  rewrite (np_array_same_width d) in Harr by done.
  injection Harr as <-. done.
Qed.

(** X18. Construction and search compose. On the store [from_texts]
    returns for texts, at least one, embedded one vector per text and all
    of width [d], a search with a query of width [d] and [k ≥ 0] returns
    [min k n] documents, and each of them is the document of one of the
    texts. *)
Theorem from_texts_then_search `{np.ArgSortContract} (texts : list string)
    (embedding : Embeddings) (metadatas : option (list (gmap string string)))
    (this : NumpyVectorStore InMemoryDocstore) (calls : nat)
    (query : string) (k : Z) (d : nat) :
  from_texts texts embedding metadatas = Return this →
  texts ≠ [] →
  length (embed_documents embedding texts) = length texts →
  Forall (λ v, length v = d) (embed_documents embedding texts) →
  length (embed_query embedding query) = d →
  0 ≤ k →
  ∃ docs,
    similarity_search query k {| self := this; uuid_calls := calls |}
    = ({| self := this; uuid_calls := calls |}, Return docs)
    ∧ length docs = Nat.min (Z.to_nat k) (length texts)
    ∧ Forall (λ doc, page_content doc ∈ texts) docs.
Proof.
  intros Hrun Hne Hone Hwidth Hq Hk.
  assert (embed_documents embedding texts ≠ []) as Hne'.
  { intros Hnil. rewrite Hnil in Hone. by destruct texts. }
  destruct (from_texts_matrix _ _ _ _ _ Hrun Hne' Hwidth) as [Hindex Hemb].
  assert (Forall (λ r, length r = d)
            (np.as_float32 <$> embed_documents embedding texts)) as Hwidth'.
  { apply Forall_fmap. eapply Forall_impl; [exact Hwidth|].
    intros v Hv. simpl. unfold np.as_float32. by rewrite length_fmap. }
  assert (length (np.as_float32 <$> embed_documents embedding texts)
          = length texts) as Hone' by by rewrite length_fmap.
  set (rows := np.as_float32 <$> embed_documents embedding texts) in *.
  set (w := {| self := this; uuid_calls := calls |}).
  assert (length (embedding_function this query) = d) as Hq'
    by by rewrite Hemb.
  set (D := sqdist (embedding32 this query) <$> rows).
  set (sel := take (Z.to_nat k) (np.argsort D)).
  assert (∀ i, i ∈ sel → (i < length texts)%nat) as Hrange.
  { intros i Hi. apply subseteq_take, argsort_elem_of in Hi.
    unfold D in Hi. rewrite length_fmap in Hi. lia. }
  assert (∀ i, i ∈ sel → ∃ text m, texts !! i = Some text
            ∧ row_document this (Z.of_nat i)
                {| page_content := text; metadata := m |}) as Hdoc.
  { intros i Hi.
    destruct (lookup_lt_is_Some_2 texts i (Hrange i Hi)) as [text Ht].
    destruct (from_texts_rows_resolve _ _ _ _ Hrun Hone i text Ht) as [m Hm].
    by exists text, m. }
  destruct (lookup_documents_Return this
              ((Z.of_nat <$> sel)
               ++ replicate (Z.to_nat (k - Z.of_nat (length (np.argsort D))))
                    (-1)))
    as (docs & Hdocs & Hrel).
  { intros i Hi Hpad. apply elem_of_app in Hi as [Hi|Hi].
    - apply list_elem_of_fmap in Hi as (j & -> & Hj).
      destruct (Hdoc j Hj) as (text & m & _ & Hm). eauto.
    - by apply elem_of_replicate in Hi as [-> _]. }
  rewrite filter_not_pad, Forall2_fmap_l in Hrel.
  exists docs. split_and!.
  - rewrite similarity_search_unfold.
    change (self w) with this.
    rewrite (similarity_indices_matrix _ _ _ _ _ Hindex Hwidth' Hq' Hk).
    rewrite outcome_bind_Return. f_equal. exact Hdocs.
  - rewrite <- (Forall2_length _ _ _ Hrel). unfold sel, D.
    rewrite length_take, argsort_length, length_fmap. lia.
  - apply Forall_forall. intros doc Hin.
    apply list_elem_of_lookup in Hin as [p Hp].
    destruct (Forall2_lookup_r _ _ _ _ _ Hrel Hp) as (i & Hi & Hrow).
    destruct (Hdoc i) as (text & m & Ht & Hm);
      [by eapply list_elem_of_lookup_2|].
    simpl in Hrow.
    rewrite (row_document_functional _ _ _ _ Hrow Hm). simpl.
    by eapply list_elem_of_lookup_2.
Qed.

Lemma from_texts_then_search_witness :
  ∃ docs,
    similarity_search (np_argsort := stable_argsort) "two" 5 toy_world
    = (toy_world, Return docs)
    ∧ length docs = 3%nat.
Proof.
  destruct (from_texts_then_search (H := stable_argsort)
              (H0 := stable_argsort_contract) ["one"; "two"; "three"]
              toy_embeddings None toy_store 0 "two" 5 2)
    as (docs & Hrun & Hlen & _).
  - vm_compute. reflexivity.
  - discriminate.
  - reflexivity.
  - repeat constructor.
  - reflexivity.
  - lia.
  - exists docs. split; [exact Hrun|exact Hlen].
Defined.
